(** * Newsletter Builder: the HTML generation engine of [src/app.py]

    A shallow embedding of [ImageProcessor.convert_to_base64],
    [NewsletterGenerator.generate_html] and its section renderers, the
    layer-ordering step of [main], the template store [MongoManager] over a
    model of the MongoDB collection, [apply_template_to_session_state] over
    the Streamlit session state, and the download file name and the
    duplicate-order warning of [main].

    The configuration reaches the generator as Python dictionaries read with
    [dict.get(key, default)], so a value is a dynamically typed Python value
    and the string methods the code calls ([strip], [lower], [replace], the
    [in] operator) raise on values of the wrong type.  Python exceptions are
    modelled by the result type [res]; strings are Rocq strings whose
    characters stand for the code points 0..255. *)

From Stdlib Require Import String Ascii List ZArith Bool Lia.
From Stdlib Require Import Sorting.Permutation Sorting.Sorted.
Import ListNotations.
Open Scope string_scope.
Open Scope list_scope.

Infix "+++" := String.append (at level 60, right associativity).

(** ** Python values and exceptions *)

Inductive pyval : Type :=
| PNone
| PBool (b : bool)
| PInt (z : Z)
| PStr (s : string).

(** An exception: its class name and its message ([str(e)]). *)
Record pyexn : Type := PyExn { exn_class : string; exn_msg : string }.

Inductive res (A : Type) : Type :=
| Ok (a : A)
| Raise (e : pyexn).
Arguments Ok {A} a.
Arguments Raise {A} e.

Definition bind {A B} (m : res A) (k : A -> res B) : res B :=
  match m with
  | Ok a => k a
  | Raise e => Raise e
  end.

Notation "x <- m ;; k" := (bind m (fun x => k))
  (at level 61, m at next level, right associativity).

Fixpoint mapM {A B} (f : A -> res B) (l : list A) : res (list B) :=
  match l with
  | [] => Ok []
  | x :: t => y <- f x ;; ys <- mapM f t ;; Ok (y :: ys)
  end.

(** ** Characters and string literals *)

Definition char_code (c : ascii) : nat := nat_of_ascii c.

(** ["\n"] *)
Definition newline : string := String "010"%char EmptyString.

(** The HTML literals of the source are written with a backquote where the
    Python literal has a double quote; [h] puts the double quotes back.  It is
    only ever applied to literals of the source, never to data. *)
Fixpoint h (s : string) : string :=
  match s with
  | EmptyString => EmptyString
  | String c t =>
      String (if Ascii.eqb c "`"%char then "034"%char else c) (h t)
  end.

(** [str.isspace] on the code points 0..255. *)
Definition is_space (c : ascii) : bool :=
  let n := char_code c in
  (Nat.leb 9 n && Nat.leb n 13) || (Nat.leb 28 n && Nat.leb n 32)
  || Nat.eqb n 133 || Nat.eqb n 160.

Fixpoint drop_space (l : list ascii) : list ascii :=
  match l with
  | [] => []
  | c :: t => if is_space c then drop_space t else l
  end.

(** [str.strip()] *)
Definition strip (s : string) : string :=
  string_of_list_ascii
    (rev (drop_space (rev (drop_space (list_ascii_of_string s))))).

(** [str.lower()] on the code points 0..255. *)
Definition lower_char (c : ascii) : ascii :=
  let n := char_code c in
  if (Nat.leb 65 n && Nat.leb n 90)
     || (Nat.leb 192 n && Nat.leb n 222 && negb (Nat.eqb n 215))
  then ascii_of_nat (n + 32) else c.

Fixpoint lower (s : string) : string :=
  match s with
  | EmptyString => EmptyString
  | String c t => String (lower_char c) (lower t)
  end.

(** [needle in hay] for two strings. *)
Fixpoint str_contains (needle hay : string) : bool :=
  String.prefix needle hay
  || match hay with
     | EmptyString => false
     | String _ t => str_contains needle t
     end.

(** [s.replace(old, new)]; every step consumes at least one character of
    [s], so [length s] steps suffice. *)
Fixpoint replace_fuel (fuel : nat) (old new s : string) : string :=
  match fuel with
  | O => s
  | S f =>
      match s with
      | EmptyString => EmptyString
      | String c t =>
          if String.prefix old s
          then new +++ replace_fuel f old new
                          (String.substring (String.length old) (String.length s) s)
          else String c (replace_fuel f old new t)
      end
  end.

Fixpoint replace_empty (new s : string) : string :=
  match s with
  | EmptyString => new
  | String c t => new +++ String c (replace_empty new t)
  end.

Definition str_replace (old new s : string) : string :=
  match old with
  | EmptyString => replace_empty new s
  | _ => replace_fuel (String.length s) old new s
  end.

(** ['\n'.join(parts)] *)
Fixpoint join_lines (parts : list string) : string :=
  match parts with
  | [] => EmptyString
  | [p] => p
  | p :: t => p +++ newline +++ join_lines t
  end.

(** ** Python semantics of the operations the generator uses *)

Definition str_truthy (s : string) : bool :=
  match s with EmptyString => false | _ => true end.

(** [bool(v)] *)
Definition truthy (v : pyval) : bool :=
  match v with
  | PNone => false
  | PBool b => b
  | PInt z => negb (Z.eqb z 0)
  | PStr s => str_truthy s
  end.

(** [a or b] *)
Definition py_or (a b : pyval) : pyval := if truthy a then a else b.

(** Decimal digits of a non-negative integer; [Pos.size_nat] bounds the
    number of digits. *)
Fixpoint z_digits (fuel : nat) (z : Z) (acc : string) : string :=
  match fuel with
  | O => acc
  | S f =>
      let acc' := String (ascii_of_nat (48 + Z.to_nat (z mod 10))) acc in
      if Z.ltb z 10 then acc' else z_digits f (z / 10) acc'
  end.

Definition z_str (z : Z) : string :=
  match z with
  | Z0 => "0"
  | Zpos p => z_digits (Pos.size_nat p) (Zpos p) EmptyString
  | Zneg p => "-" +++ z_digits (Pos.size_nat p) (Zpos p) EmptyString
  end.

(** [str(v)], which is what an f-string interpolates. *)
Definition py_str (v : pyval) : string :=
  match v with
  | PNone => "None"
  | PBool true => "True"
  | PBool false => "False"
  | PInt z => z_str z
  | PStr s => s
  end.

Definition type_name (v : pyval) : string :=
  match v with
  | PNone => "NoneType"
  | PBool _ => "bool"
  | PInt _ => "int"
  | PStr _ => "str"
  end.

Definition no_attribute (v : pyval) (attr : string) : pyexn :=
  PyExn "AttributeError"
    ("'" +++ type_name v +++ "' object has no attribute '" +++ attr +++ "'").

(** [v.strip()] *)
Definition py_strip (v : pyval) : res string :=
  match v with
  | PStr s => Ok (strip s)
  | _ => Raise (no_attribute v "strip")
  end.

(** [v.lower()] *)
Definition py_lower (v : pyval) : res string :=
  match v with
  | PStr s => Ok (lower s)
  | _ => Raise (no_attribute v "lower")
  end.

(** [needle in v] for a string literal [needle]. *)
Definition py_in (needle : string) (v : pyval) : res bool :=
  match v with
  | PStr s => Ok (str_contains needle s)
  | _ => Raise (PyExn "TypeError"
                  ("argument of type '" +++ type_name v +++ "' is not iterable"))
  end.

(** [v.replace(old, new)] for a string literal [old]. *)
Definition py_replace (v : pyval) (old : string) (new : pyval) : res string :=
  match v, new with
  | PStr s, PStr n => Ok (str_replace old n s)
  | PStr _, _ => Raise (PyExn "TypeError"
                  ("replace() argument 2 must be str, not " +++ type_name new))
  | _, _ => Raise (no_attribute v "replace")
  end.

(** The double-quote character as a one-character string. *)
Definition dquote : string := String (ascii_of_nat 34) EmptyString.

(** [v + n] for an integer literal [n] ([bool] is a subclass of [int]);
    [str.__add__] has its own message. *)
Definition py_add_int (v : pyval) (n : Z) : res Z :=
  match v with
  | PInt z => Ok (z + n)%Z
  | PBool b => Ok ((if b then 1 else 0) + n)%Z
  | PStr _ => Raise (PyExn "TypeError"
                ("can only concatenate str (not " +++ dquote +++ "int" +++ dquote +++ ") to str"))
  | _ => Raise (PyExn "TypeError"
                  ("unsupported operand type(s) for +: '" +++ type_name v +++ "' and 'int'"))
  end.

(** [a == b] *)
Definition py_eq (a b : pyval) : bool :=
  match a, b with
  | PNone, PNone => true
  | PStr s, PStr t => String.eqb s t
  | PInt x, PInt y => Z.eqb x y
  | PBool x, PBool y => Bool.eqb x y
  | PInt x, PBool y | PBool y, PInt x => Z.eqb x (if y then 1 else 0)
  | _, _ => false
  end.

(** ** Dictionaries *)

(** A configuration dictionary; keys are unique in the dictionaries the
    application builds, and lookup takes the first binding. *)
Definition dict : Type := list (string * pyval).

Fixpoint dict_lookup (d : dict) (k : string) : option pyval :=
  match d with
  | [] => None
  | (k', v) :: t => if String.eqb k k' then Some v else dict_lookup t k
  end.

(** [d.get(k, default)] *)
Definition dict_get (d : dict) (k : string) (default : pyval) : pyval :=
  match dict_lookup d k with
  | Some v => v
  | None => default
  end.

(** [bool(d)] for [Optional[dict]]. *)
Definition dict_truthy (d : option dict) : bool :=
  match d with
  | Some (_ :: _) => true
  | _ => false
  end.

(** ** [NewsletterGenerator._generate_layer_text] *)

Definition generate_layer_text
    (title subtitle subtitle2 content : pyval)
    (title_color subtitle_color subtitle2_color content_color : pyval)
    (title_font_size subtitle_font_size subtitle2_font_size content_font_size : pyval)
    (title_bold subtitle_bold subtitle2_bold : pyval) : res (list string) :=
  let title_weight := if truthy title_bold then "700" else "400" in
  let subtitle_weight := if truthy subtitle_bold then "600" else "400" in
  let subtitle2_weight := if truthy subtitle2_bold then "500" else "400" in
  let title_part :=
    if truthy title then
      [h "<h2 style=`color: " +++ py_str title_color
       +++ "; margin: 0 0 10px 0; font-size: " +++ py_str title_font_size
       +++ "px; font-weight: " +++ title_weight +++ h "; line-height: 1.2;`>"
       +++ py_str title +++ "</h2>"]
    else [] in
  let subtitle_part :=
    if truthy subtitle then
      [h "<h3 style=`color: " +++ py_str subtitle_color
       +++ "; margin: 0 0 10px 0; font-size: " +++ py_str subtitle_font_size
       +++ "px; font-weight: " +++ subtitle_weight +++ h "; line-height: 1.4;`>"
       +++ py_str subtitle +++ "</h3>"]
    else [] in
  let subtitle2_part :=
    if truthy subtitle2 then
      [h "<h4 style=`color: " +++ py_str subtitle2_color
       +++ "; margin: 0 0 15px 0; font-size: " +++ py_str subtitle2_font_size
       +++ "px; font-weight: " +++ subtitle2_weight +++ h "; line-height: 1.4;`>"
       +++ py_str subtitle2 +++ "</h4>"]
    else [] in
  content_part <-
    (if truthy content then
       is_html <- (lt <- py_in "<" content ;;
                   if lt then py_in ">" content else Ok false) ;;
       if is_html then
         Ok [h "<div style=`color: " +++ py_str content_color +++ "; font-size: "
             +++ py_str content_font_size +++ h "px; margin: 0; line-height: 1.5;`>";
             py_str content;
             "</div>"]
       else
         formatted_content <- py_replace content newline (PStr "<br>") ;;
         Ok [h "<p style=`color: " +++ py_str content_color
             +++ "; margin: 0; font-size: " +++ py_str content_font_size
             +++ h "px; line-height: 1.5;`>" +++ formatted_content +++ "</p>"]
     else Ok []) ;;
  Ok (title_part ++ subtitle_part ++ subtitle2_part ++ content_part).

(** ** [NewsletterGenerator._generate_layer_html] *)

(** Image source of a layer: a non-blank [image_url] (stripped) takes
    precedence over [image_base64]. *)
Definition layer_image_src (layer : dict) : res pyval :=
  let image_url := dict_get layer "image_url" PNone in
  let image_base64 := dict_get layer "image_base64" PNone in
  if truthy image_url then
    u <- py_strip image_url ;;
    if str_truthy u then Ok (PStr u)
    else if truthy image_base64 then Ok image_base64 else Ok PNone
  else if truthy image_base64 then Ok image_base64 else Ok PNone.

(** The anchor every cell of a linked layer opens with. *)
Definition link_open (link_url : string) : string :=
  h "<a href=`" +++ link_url
  +++ h "` target=`_blank` rel=`noopener noreferrer` style=`text-decoration: none; color: inherit; display: block;`>".

Definition layer_img (image_src alt image_width : pyval) : string :=
  h "<img src=`" +++ py_str image_src +++ h "` alt=`" +++ py_str alt +++ h "` "
  +++ h "width=`" +++ py_str image_width +++ h "` style=`width: " +++ py_str image_width
  +++ h "px; max-width: 100%; height: auto; display: block; border: 0; outline: none; background-color: transparent;`>".

Definition layer_open (padding : pyval) : list string :=
  ["<tr>";
   h "<td style=`padding: " +++ py_str padding +++ h "px 20px;`>";
   h "<table role=`presentation` style=`width: 100%; border-collapse: collapse;`>";
   "<tr>"].

Definition layer_close : list string := ["</tr>"; "</table>"; "</td>"; "</tr>"].

Definition img_cell_left (image_width : pyval) : string :=
  h "<td style=`vertical-align: top; padding-right: 20px; width: " +++ py_str image_width
  +++ h "px; background-color: transparent;`>".

Definition text_cell_left : string := h "<td style=`vertical-align: top;`>".

Definition text_cell_right : string :=
  h "<td style=`vertical-align: top; padding-right: 20px;`>".

Definition img_cell_right (image_width : pyval) : string :=
  h "<td style=`vertical-align: top; width: " +++ py_str image_width
  +++ h "px; background-color: transparent;`>".

Definition text_cell_full : string := h "<td style=`vertical-align: top; width: 100%;`>".

(** The call of [_generate_layer_text] with the layer's fields. *)
Definition layer_text (layer : dict) (text_color : pyval) : res (list string) :=
  let title := dict_get layer "title" (PStr "") in
  let subtitle := dict_get layer "subtitle" (PStr "") in
  let subtitle2 := dict_get layer "subtitle2" (PStr "") in
  let content := dict_get layer "content" (PStr "") in
  let title_color := dict_get layer "title_color" text_color in
  let subtitle_color := dict_get layer "subtitle_color" (PStr "#00925b") in
  let subtitle2_color := dict_get layer "subtitle2_color" text_color in
  let title_font_size := dict_get layer "title_font_size" (PInt 21) in
  let subtitle_font_size := dict_get layer "subtitle_font_size" (PInt 15) in
  let subtitle2_font_size := dict_get layer "subtitle2_font_size" (PInt 13) in
  let title_bold := dict_get layer "title_bold" (PBool true) in
  let subtitle_bold := dict_get layer "subtitle_bold" (PBool true) in
  let subtitle2_bold := dict_get layer "subtitle2_bold" (PBool false) in
  let content_font_size := dict_get layer "content_font_size" (PInt 13) in
  let content_color := dict_get layer "content_color" (PStr "#000000") in
  generate_layer_text title subtitle subtitle2 content
    title_color subtitle_color subtitle2_color content_color
    title_font_size subtitle_font_size subtitle2_font_size content_font_size
    title_bold subtitle_bold subtitle2_bold.

Definition generate_layer_html (layer : dict) (text_color : pyval) : res (list string) :=
  let padding := dict_get layer "padding" (PInt 30) in
  image_alignment <- py_lower (dict_get layer "image_alignment" (PStr "left")) ;;
  image_src <- layer_image_src layer ;;
  let image_width := dict_get layer "image_width" (PInt 210) in
  let title := dict_get layer "title" (PStr "") in
  link_url <- py_strip (dict_get layer "link_url" (PStr "")) ;;
  let has_link := str_truthy link_url in
  let text := layer_text layer text_color in
  let img := layer_img image_src (py_or title (PStr "Layer Image")) image_width in
  let a_open := if has_link then [link_open link_url] else [] in
  let a_close := if has_link then ["</a>"] else [] in
  has_image <- (if truthy image_src
                then s <- py_strip image_src ;; Ok (str_truthy s)
                else Ok false) ;;
  cells <-
    (if has_image && String.eqb image_alignment "left" then
       let image_cell :=
         if has_link
         then [img_cell_left image_width; link_open link_url; img; "</a>"; "</td>"]
         else [img_cell_left image_width; img; "</td>"] in
       t <- text ;;
       Ok (image_cell ++ [text_cell_left] ++ a_open ++ t ++ a_close ++ ["</td>"])
     else if has_image && String.eqb image_alignment "right" then
       t <- text ;;
       let image_cell :=
         if has_link
         then [img_cell_right image_width; link_open link_url; img; "</a>"; "</td>"]
         else [img_cell_right image_width; img; "</td>"] in
       Ok ([text_cell_right] ++ a_open ++ t ++ a_close ++ ["</td>"] ++ image_cell)
     else
       t <- text ;;
       Ok ([text_cell_full] ++ a_open ++ t ++ a_close ++ ["</td>"])) ;;
  Ok (layer_open padding ++ cells ++ layer_close).

(** ** [NewsletterGenerator._generate_header_html] *)

(** Image source of the header: [header_image_base64] is tried first, then
    [header_image_url], each by its truth value and without stripping. *)
Definition header_image_src (header_config : dict) : pyval :=
  let header_image_base64 := dict_get header_config "header_image_base64" PNone in
  let header_image_url := dict_get header_config "header_image_url" PNone in
  if truthy header_image_base64 then header_image_base64
  else if truthy header_image_url then header_image_url
  else PNone.

(** The hidden pre-header row. *)
Definition pre_header_row (pre_header_text : string) : list string :=
  ["<tr>";
   h "<td style=`padding: 0; font-size: 0; line-height: 0; display: none !important; "
   +++ h "max-height: 0px; max-width: 0px; opacity: 0; overflow: hidden; mso-hide: all;`>";
   h "<span style=`font-size: 1px; color: #ffffff; line-height: 1px;`>" +++ pre_header_text +++ "</span>";
   "</td>";
   "</tr>"].

Definition header_image_row (image_src header_title image_width : pyval) : list string :=
  ["<tr>";
   h "<td style=`padding: 0; margin: 0;`>";
   h "<img src=`" +++ py_str image_src +++ h "` alt=`" +++ py_str header_title +++ h "` "
   +++ h "style=`width: 100%; max-width: " +++ py_str image_width
   +++ h "px; height: auto; display: block; margin: 0; padding: 0;`>";
   "</td>";
   "</tr>"].

(** Part 2 of the header, after the optional pre-header row: image row,
    blank row, title row and text row. *)
Definition generate_header_main (subject : pyval) (header_config : dict) : res (list string) :=
  header_title0 <- py_strip (dict_get header_config "header_title" (PStr "")) ;;
  let header_title := if str_truthy header_title0 then PStr header_title0 else subject in
  header_text <- py_strip (dict_get header_config "header_text" (PStr "")) ;;
  let header_bg_color := dict_get header_config "header_bg_color" (PStr "#ffffff") in
  let image_width := dict_get header_config "image_width" (PInt 600) in
  let title_font_size := dict_get header_config "title_font_size" (PInt 28) in
  let title_color := dict_get header_config "title_color" (PStr "#000000") in
  let title_bold := dict_get header_config "title_bold" (PBool true) in
  let text_font_size := dict_get header_config "text_font_size" (PInt 16) in
  let text_color := dict_get header_config "text_color" (PStr "#000000") in
  let title_weight := if truthy title_bold then "700" else "400" in
  let image_src := header_image_src header_config in
  let image_part :=
    if truthy image_src then header_image_row image_src header_title image_width else [] in
  let blank_part :=
    ["<tr>";
     h "<td style=`padding: 20px 20px; background-color: " +++ py_str header_bg_color +++ h ";`>";
     "&nbsp;";
     "</td>";
     "</tr>"] in
  let title_part :=
    if truthy header_title then
      ["<tr>";
       h "<td style=`padding: 0 20px 10px 20px; background-color: " +++ py_str header_bg_color +++ h ";`>";
       h "<h1 style=`color: " +++ py_str title_color +++ "; font-size: " +++ py_str title_font_size
       +++ "px; margin: 0; font-weight: " +++ title_weight +++ h "; line-height: 1.3;`>"
       +++ py_str header_title +++ "</h1>";
       "</td>";
       "</tr>"]
    else [] in
  let text_part :=
    if str_truthy header_text then
      let body :=
        if str_contains "<" header_text && str_contains ">" header_text then
          [h "<div style=`color: " +++ py_str text_color +++ "; font-size: " +++ py_str text_font_size
           +++ h "px; margin: 0; line-height: 1.5;`>";
           header_text;
           "</div>"]
        else
          [h "<p style=`color: " +++ py_str text_color +++ "; font-size: " +++ py_str text_font_size
           +++ h "px; margin: 0; line-height: 1.5;`>" +++ str_replace newline "<br>" header_text
           +++ "</p>"] in
      ["<tr>";
       h "<td style=`padding: 0 20px 20px 20px; background-color: " +++ py_str header_bg_color +++ h ";`>"]
      ++ body ++ ["</td>"; "</tr>"]
    else [] in
  Ok (image_part ++ blank_part ++ title_part ++ text_part).

Definition generate_header_html (subject : pyval) (header_config : dict) : res (list string) :=
  pre_header_text <- py_strip (dict_get header_config "pre_header_text" (PStr "")) ;;
  let pre_part := if str_truthy pre_header_text then pre_header_row pre_header_text else [] in
  main_part <- generate_header_main subject header_config ;;
  Ok (pre_part ++ main_part).

(** ** [NewsletterGenerator._generate_footer_html] *)

(** Image source of the footer: [footer_image_base64] first, then
    [footer_image_url]. *)
Definition footer_image_src (footer_config : dict) : pyval :=
  let footer_image_base64 := dict_get footer_config "footer_image_base64" PNone in
  let footer_image_url := dict_get footer_config "footer_image_url" PNone in
  if truthy footer_image_base64 then footer_image_base64
  else if truthy footer_image_url then footer_image_url
  else PNone.

(** The nested [_append_footer_image]. *)
Definition append_footer_image (footer_config : dict) (image_src company_name image_width : pyval)
    : res (list string) :=
  if negb (truthy image_src) then Ok [] else
  let footer_image_link_url := dict_get footer_config "footer_image_link_url" (PStr "") in
  has_link <- (if truthy footer_image_link_url
               then s <- py_strip footer_image_link_url ;; Ok (str_truthy s)
               else Ok false) ;;
  Ok (["<div style=" +++ h "`margin-bottom: 20px;`>"]
      ++ (if has_link
          then [h "<a href=`" +++ py_str footer_image_link_url
                +++ h "` target=`_blank` rel=`noopener noreferrer` style=`text-decoration: none; display: inline-block;`>"]
          else [])
      ++ [h "<img src=`" +++ py_str image_src +++ h "` alt=`"
          +++ py_str (py_or company_name (PStr "Footer Image")) +++ h "` "
          +++ h "width=`" +++ py_str image_width +++ h "` style=`width: " +++ py_str image_width
          +++ h "px; max-width: 100%; height: auto; display: inline-block; border: 0; outline: none; background-color: transparent;`>"]
      ++ (if has_link then ["</a>"] else [])
      ++ ["</div>"]).

(** One social icon cell of the "Images" mode. *)
Definition social_icon_cell (cell_width : Z) (url image social_image_width : pyval)
    (alt : string) : string :=
  h "<td style=`padding: 0; vertical-align: middle; text-align: center;` width=`" +++ z_str cell_width +++ h "`>"
  +++ h "<a href=`" +++ py_str url
  +++ h "` target=`_blank` rel=`noopener noreferrer` style=`display: inline-block; text-decoration: none;`>"
  +++ h "<img src=`" +++ py_str image +++ h "` alt=`" +++ alt +++ h "` width=`" +++ py_str social_image_width
  +++ h "` height=`" +++ py_str social_image_width +++ h "` "
  +++ h "style=`width: " +++ py_str social_image_width +++ "px !important; height: "
  +++ py_str social_image_width +++ "px !important; max-width: " +++ py_str social_image_width
  +++ "px; max-height: " +++ py_str social_image_width
  +++ h "px; border: 0; outline: none; display: block; object-fit: contain;`></a>"
  +++ "</td>".

Definition social_spacer_cell (spacing_px : Z) : string :=
  h "<td style=`padding: 0; width: " +++ z_str spacing_px
  +++ h "px; font-size: 0; line-height: 0;` width=`" +++ z_str spacing_px +++ h "`>&nbsp;</td>".

Definition social_text_link (url : pyval) (name : string) : string :=
  h "<a href=`" +++ py_str url
  +++ h "` target=`_blank` rel=`noopener noreferrer` style=`color: #999999; text-decoration: none; margin: 0 10px; display: inline-block;`>"
  +++ name +++ "</a>".

(** The default social-media label, as the (doubly encoded) literal of the
    source spells it. *)
Definition default_social_media_label : string :=
  "Die Social-Media-Kan" +++ String "195"%char (String "164"%char "le der bfz gGmbH:").

Definition generate_footer_html (footer_config : dict) : res (list string) :=
  let footer_bg_color := dict_get footer_config "footer_bg_color" (PStr "#ffffff") in
  let footer_image_position := dict_get footer_config "footer_image_position" (PStr "Above Text") in
  let image_width := dict_get footer_config "image_width" (PInt 600) in
  footer_alignment <- py_lower (dict_get footer_config "footer_alignment" (PStr "left")) ;;
  let company_name := dict_get footer_config "company_name" (PStr "") in
  let company_name_color := dict_get footer_config "company_name_color" (PStr "#000000") in
  let company_name_size := dict_get footer_config "company_name_size" (PInt 12) in
  let company_name_bold := dict_get footer_config "company_name_bold" (PBool false) in
  let address := dict_get footer_config "address" (PStr "") in
  let address_color := dict_get footer_config "address_color" (PStr "#000000") in
  let address_size := dict_get footer_config "address_size" (PInt 12) in
  let address_bold := dict_get footer_config "address_bold" (PBool false) in
  let directors := dict_get footer_config "directors" (PStr "") in
  let directors_color := dict_get footer_config "directors_color" (PStr "#000000") in
  let directors_size := dict_get footer_config "directors_size" (PInt 12) in
  let directors_bold := dict_get footer_config "directors_bold" (PBool false) in
  let image_src := footer_image_src footer_config in
  let align_style :=
    if String.eqb footer_alignment "left" then "text-align: left;"
    else if String.eqb footer_alignment "center" then "text-align: center;"
    else if String.eqb footer_alignment "right" then "text-align: right;"
    else "text-align: left;" in
  let company_name_weight := if truthy company_name_bold then "700" else "400" in
  let address_weight := if truthy address_bold then "700" else "400" in
  let directors_weight := if truthy directors_bold then "700" else "400" in
  let container :=
    ["<tr>";
     h "<td style=`padding: 30px 20px; background-color: " +++ py_str footer_bg_color +++ "; "
     +++ align_style +++ h "`>"] in
  image_above <- (if py_eq footer_image_position (PStr "Above Text")
                  then append_footer_image footer_config image_src company_name image_width
                  else Ok []) ;;
  company_part <-
    (if truthy company_name || truthy address || truthy directors then
       let name_part :=
         if truthy company_name then
           [h "<p style=`color: " +++ py_str company_name_color +++ "; margin: 0 0 10px 0; font-size: "
            +++ py_str company_name_size +++ "px; font-weight: " +++ company_name_weight
            +++ h "; line-height: 1.5;`>" +++ py_str company_name +++ "</p>"]
         else [] in
       address_part <-
         (if truthy address then
            formatted_address <- py_replace address newline (PStr "<br>") ;;
            Ok [h "<p style=`color: " +++ py_str address_color +++ "; margin: 0 0 10px 0; font-size: "
                +++ py_str address_size +++ "px; font-weight: " +++ address_weight
                +++ h "; line-height: 1.5;`>" +++ formatted_address +++ "</p>"]
          else Ok []) ;;
       directors_part <-
         (if truthy directors then
            formatted_directors <- py_replace directors newline (PStr "<br>") ;;
            Ok [h "<p style=`color: " +++ py_str directors_color +++ "; margin: 0 0 15px 0; font-size: "
                +++ py_str directors_size +++ "px; font-weight: " +++ directors_weight
                +++ h "; line-height: 1.5;`>" +++ formatted_directors +++ "</p>"]
          else Ok []) ;;
       Ok ([h "<div style=`margin-bottom: 15px;`>"] ++ name_part ++ address_part
           ++ directors_part ++ ["</div>"])
     else Ok []) ;;
  image_after <- (if py_eq footer_image_position (PStr "After Text")
                  then append_footer_image footer_config image_src company_name image_width
                  else Ok []) ;;
  let social_media_type := dict_get footer_config "social_media_type" (PStr "URLs Only") in
  let social_image_width := dict_get footer_config "social_image_width" (PInt 30) in
  let facebook_url := dict_get footer_config "facebook_url" (PStr "") in
  let facebook_image_base64 := dict_get footer_config "facebook_image_base64" PNone in
  let linkedin_url := dict_get footer_config "linkedin_url" (PStr "") in
  let linkedin_image_base64 := dict_get footer_config "linkedin_image_base64" PNone in
  let xing_url := dict_get footer_config "xing_url" (PStr "") in
  let xing_image_base64 := dict_get footer_config "xing_image_base64" PNone in
  let instagram_url := dict_get footer_config "instagram_url" (PStr "") in
  let instagram_image_base64 := dict_get footer_config "instagram_image_base64" PNone in
  let images_mode := py_eq social_media_type (PStr "Images") in
  let fb := truthy facebook_url && truthy facebook_image_base64 in
  let li := truthy linkedin_url && truthy linkedin_image_base64 in
  let xi := truthy xing_url && truthy xing_image_base64 in
  let ig := truthy instagram_url && truthy instagram_image_base64 in
  social_links <-
    (if images_mode then
       let spacing_px := 10%Z in
       cell_width <- py_add_int social_image_width 5 ;;
       Ok ((if fb then social_icon_cell cell_width facebook_url facebook_image_base64
                         social_image_width "Facebook"
                       :: (if li || xi || ig then [social_spacer_cell spacing_px] else [])
            else [])
           ++ (if li then social_icon_cell cell_width linkedin_url linkedin_image_base64
                            social_image_width "LinkedIn"
                          :: (if xi || ig then [social_spacer_cell spacing_px] else [])
               else [])
           ++ (if xi then social_icon_cell cell_width xing_url xing_image_base64
                            social_image_width "Xing"
                          :: (if ig then [social_spacer_cell spacing_px] else [])
               else [])
           ++ (if ig then [social_icon_cell cell_width instagram_url instagram_image_base64
                             social_image_width "Instagram"]
               else []))
     else
       Ok ((if truthy facebook_url then [social_text_link facebook_url "Facebook"] else [])
           ++ (if truthy linkedin_url then [social_text_link linkedin_url "LinkedIn"] else [])
           ++ (if truthy xing_url then [social_text_link xing_url "Xing"] else [])
           ++ (if truthy instagram_url then [social_text_link instagram_url "Instagram"] else []))) ;;
  let social_part :=
    match social_links with
    | [] => []
    | _ :: _ =>
        let social_media_label :=
          dict_get footer_config "social_media_label" (PStr default_social_media_label) in
        let social_label_color := dict_get footer_config "social_label_color" (PStr "#000000") in
        let social_label_size := dict_get footer_config "social_label_size" (PInt 14) in
        let social_label_bold := dict_get footer_config "social_label_bold" (PBool true) in
        let social_label_weight := if truthy social_label_bold then "700" else "400" in
        [h "<div style=`margin-top: 20px;`>"]
        ++ (if truthy social_media_label
            then [h "<p style=`color: " +++ py_str social_label_color +++ "; margin: 0 0 10px 0; font-size: "
                  +++ py_str social_label_size +++ "px; font-weight: " +++ social_label_weight +++ h ";`>"
                  +++ py_str social_media_label +++ "</p>"]
            else [])
        ++ (if images_mode
            then [h "<table cellpadding=`0` cellspacing=`0` border=`0` style=`border-collapse: collapse; border-spacing: 0;`>";
                  "<tr>"] ++ social_links ++ ["</tr>"; "</table>"]
            else ["<div>"] ++ social_links ++ ["</div>"])
        ++ ["</div>"]
    end in
  Ok (container ++ image_above ++ company_part ++ image_after ++ social_part
      ++ ["</td>"; "</tr>"]).

(** ** [NewsletterGenerator._generate_subscription_html] *)

Definition generate_subscription_html (subscription_config : dict) : res (list string) :=
  let footer_color := dict_get subscription_config "footer_color" (PStr "#999999") in
  let separator :=
    ["<tr>";
     h "<td style=`padding: 20px 20px 10px 20px;`>";
     h "<table role=`presentation` style=`width: 100%; border-collapse: collapse;`>";
     "<tr>";
     h "<td style=`height: 1px; background-color: #e0e0e0; line-height: 1px; font-size: 1px;`>&nbsp;</td>";
     "</tr>";
     "</table>";
     "</td>";
     "</tr>"] in
  let content_open :=
    ["<tr>";
     h "<td align=`center` style=`padding: 10px 20px 30px 20px; font-size: 12px; line-height: 18px; color: "
     +++ py_str footer_color +++ h ";`>"] in
  let disclaimer := dict_get subscription_config "disclaimer_text"
      (PStr "This email was sent to you because you subscribed to our newsletter.") in
  let disclaimer_part := if truthy disclaimer then [py_str disclaimer +++ "<br>"] else [] in
  let company_name := dict_get subscription_config "company_name" (PStr "Your Company Name") in
  let copyright_default :=
    String "194"%char (String "169"%char " 2024 ") +++ py_str company_name
    +++ ". All rights reserved." in
  let copyright_text0 := dict_get subscription_config "copyright_text" (PStr copyright_default) in
  copyright_text <-
    (if truthy copyright_text0 then
       has_placeholder <- py_in "{company}" copyright_text0 ;;
       if has_placeholder
       then r <- py_replace copyright_text0 "{company}" company_name ;; Ok (PStr r)
       else Ok copyright_text0
     else Ok copyright_text0) ;;
  let copyright_part := if truthy copyright_text then [py_str copyright_text +++ "<br>"] else [] in
  let address := dict_get subscription_config "address"
      (PStr "123 Main Street, Suite 400, City, State 12345") in
  let address_part := if truthy address then [py_str address +++ "<br><br>"] else [] in
  let unsubscribe_link := dict_get subscription_config "unsubscribe_link" (PStr "#UNSUBSCRIBE_LINK") in
  let view_online_link := dict_get subscription_config "view_online_link" (PStr "#VIEW_ONLINE_LINK") in
  Ok (separator ++ content_open ++ disclaimer_part ++ copyright_part ++ address_part
      ++ [h "<a href=`" +++ py_str unsubscribe_link +++ h "` target=`_blank` style=`color: "
          +++ py_str footer_color +++ h "; text-decoration: underline;`>Unsubscribe</a>";
          h " &bull; <a href=`" +++ py_str view_online_link +++ h "` target=`_blank` style=`color: "
          +++ py_str footer_color +++ h "; text-decoration: underline;`>View Online</a>";
          "</td>";
          "</tr>"]).

(** ** [NewsletterGenerator.generate_html] *)

(** The arguments of [generate_html]. *)
Record newsletter : Type := Newsletter {
  subject : pyval;
  background_color : pyval;
  text_color : pyval;
  header_config : dict;
  layers : list dict;
  footer_config : dict;
  subscription_config : option dict;
  max_width : pyval;
  font_family : pyval
}.

Definition google_fonts_link : string :=
  h "<link href=`https://fonts.googleapis.com/css2?family=Oswald:wght@200;300;400;500;600;700&display=swap` rel=`stylesheet`>".

(** The first six parts of the document, before the optional font link. *)
Definition document_head (subj : pyval) : list string :=
  ["<!DOCTYPE html>";
   h "<html lang=`en`>";
   "<head>";
   h "<meta charset=`UTF-8`>";
   h "<meta name=`viewport` content=`width=device-width, initial-scale=1.0`>";
   "<title>" +++ py_str subj +++ "</title>"].

Definition document_open (nl : newsletter) : list string :=
  ["</head>";
   h "<body style=`margin: 0; padding: 0; font-family: " +++ py_str (font_family nl)
   +++ h "; background-color: #FFFFFF;`>";
   h "<table role=`presentation` style=`width: 100%; border-collapse: collapse; background-color: #FFFFFF;`>";
   "<tr>";
   h "<td align=`center` style=`padding: 20px 0;`>";
   h "<table role=`presentation` style=`width: " +++ py_str (max_width nl)
   +++ "px; max-width: 100%; border-collapse: collapse; "
   +++ "background-color: " +++ py_str (background_color nl) +++ h "; margin: 0 auto;`>"].

Definition document_close : list string :=
  ["</table>"; "</td>"; "</tr>"; "</table>"; "</body>"; "</html>"].

(** The list [html_parts] that [generate_html] joins. *)
Definition generate_html_parts (nl : newsletter) : res (list string) :=
  include_google_fonts <- py_in "Oswald" (font_family nl) ;;
  let head :=
    document_head (subject nl)
    ++ (if include_google_fonts then [google_fonts_link] else []) in
  header <- generate_header_html (subject nl) (header_config nl) ;;
  body <- mapM (fun layer => generate_layer_html layer (text_color nl)) (layers nl) ;;
  footer <- generate_footer_html (footer_config nl) ;;
  subscription <-
    (match subscription_config nl with
     | Some sc => if dict_truthy (Some sc) then generate_subscription_html sc else Ok []
     | None => Ok []
     end) ;;
  Ok (head ++ document_open nl ++ header ++ concat body ++ footer ++ subscription
      ++ document_close).

Definition generate_html (nl : newsletter) : res string :=
  parts <- generate_html_parts nl ;;
  Ok (join_lines parts).

(** ** The layer ordering of [main] *)

(** The same arguments with another layer list. *)
Definition with_layers (nl : newsletter) (ls : list dict) : newsletter :=
  Newsletter (subject nl) (background_color nl) (text_color nl) (header_config nl) ls
    (footer_config nl) (subscription_config nl) (max_width nl) (font_family nl).

(** [x.get('order', 999)] as a sort key.  The layer form fills [order] from
    an integer [st.number_input]; a key that is not an [int] is modelled as
    the [TypeError] a comparison with an integer key raises. *)
Definition order_key (layer : dict) : res Z :=
  match dict_get layer "order" (PInt 999) with
  | PInt z => Ok z
  | PBool b => Ok (if b then 1 else 0)%Z
  | v => Raise (PyExn "TypeError"
                  ("'<' not supported between instances of '" +++ type_name v +++ "' and 'int'"))
  end.

(** Insertion of a decorated element in front of the first element whose
    key is not smaller; [sort_by_key] inserts the elements from the last one
    back, so elements with equal keys keep their order (a stable sort, as
    Python's). *)
Fixpoint insert_by_key (x : Z * dict) (l : list (Z * dict)) : list (Z * dict) :=
  match l with
  | [] => [x]
  | y :: t => if Z.leb (fst x) (fst y) then x :: l else y :: insert_by_key x t
  end.

Fixpoint sort_by_key (l : list (Z * dict)) : list (Z * dict) :=
  match l with
  | [] => []
  | x :: t => insert_by_key x (sort_by_key t)
  end.

(** [sorted(layers, key=lambda x: x.get('order', 999))]: the keys are
    computed first, then the decorated list is sorted stably. *)
Definition sort_layers (layers : list dict) : res (list dict) :=
  keys <- mapM order_key layers ;;
  Ok (map snd (sort_by_key (combine keys layers))).

(** [orders = [layer.get('order', i) for i, layer in enumerate(layers, start=1)]] *)
Fixpoint layer_orders_from (i : Z) (layers : list dict) : list pyval :=
  match layers with
  | [] => []
  | layer :: t => dict_get layer "order" (PInt i) :: layer_orders_from (i + 1)%Z t
  end.

Definition layer_orders (layers : list dict) : list pyval := layer_orders_from 1 layers.

(** [duplicate_orders] is non-empty. *)
Fixpoint has_duplicates (l : list pyval) : bool :=
  match l with
  | [] => false
  | x :: t => existsb (py_eq x) t || has_duplicates t
  end.

(** What pressing "Generate Newsletter" in [main] yields for the layers the
    forms produced: [None] when the duplicate-order check refuses to generate,
    otherwise the HTML of [generate_html] on the layers sorted by [order]. *)
Definition main_generate (nl : newsletter) : res (option string) :=
  if has_duplicates (layer_orders (layers nl)) then
    (* the first check still sorts, by (order, position), for display only *)
    Ok None
  else
    sorted <- sort_layers (layers nl) ;;
    if has_duplicates (layer_orders sorted) then Ok None
    else
      html <- generate_html (with_layers nl sorted) ;;
      Ok (Some html).

(** ** [ImageProcessor.convert_to_base64] *)

(** The uploaded file: its declared MIME type ([image_file.type]) and bytes. *)
Record upload : Type := Upload { upload_type : string; upload_bytes : list Byte.byte }.

(** The two ways the code calls [img.save]. *)
Inductive save_format : Type :=
| SavePNG (optimize : bool)
| SaveJPEG (quality : Z).

(** Pillow's image objects, as far as [convert_to_base64] uses them. *)
Record pil : Type := Pil {
  pil_image : Type;
  pil_mode : pil_image -> string;               (* img.mode *)
  pil_format : pil_image -> pyval;              (* img.format, None when unknown *)
  pil_open : list Byte.byte -> res pil_image;   (* Image.open *)
  pil_convert : pil_image -> string -> res pil_image;      (* img.convert(mode) *)
  pil_save : pil_image -> save_format -> res (list Byte.byte);  (* img.save(buffer, ...) *)
  b64encode : list Byte.byte -> string          (* base64.b64encode(...).decode('utf-8') *)
}.

Section ImageProcessor.

Variable P : pil.

Definition is_png (image_file : upload) (img : pil_image P) : bool :=
  existsb (String.eqb (upload_type image_file)) ["image/png"; "image/PNG"]
  || py_eq (pil_format P img) (PStr "PNG").

(** The body of the [try] block: the bytes written to the buffer and the
    MIME type. *)
Definition encode_image (image_file : upload) : res (list Byte.byte * string) :=
  img <- pil_open P (upload_bytes image_file) ;;
  if is_png image_file img then
    img' <- (if existsb (String.eqb (pil_mode P img)) ["RGBA"; "LA"; "P"] then Ok img
             else if String.eqb (pil_mode P img) "RGB" then pil_convert P img "RGBA"
             else pil_convert P img "RGBA") ;;
    bytes <- pil_save P img' (SavePNG true) ;;
    Ok (bytes, "image/png")
  else
    img' <- (if String.eqb (pil_mode P img) "RGB" then Ok img else pil_convert P img "RGB") ;;
    bytes <- pil_save P img' (SaveJPEG 95) ;;
    Ok (bytes, "image/jpeg").

(** [convert_to_base64]: the returned value, and the messages shown with
    [st.error].  Every exception of the [try] block is caught by
    [except Exception]. *)
Definition convert_to_base64 (image_file : option upload) : res (option string) * list string :=
  match image_file with
  | None => (Ok None, [])
  | Some f =>
      match encode_image f with
      | Ok (bytes, mime_type) =>
          (Ok (Some ("data:" +++ mime_type +++ ";base64," +++ b64encode P bytes)), [])
      | Raise e => (Ok None, ["Error processing image: " +++ exn_msg e])
      end
  end.

End ImageProcessor.

(** ** [int()] and [repr()] *)

Definition hex_digit (n : nat) : ascii :=
  ascii_of_nat (if Nat.ltb n 10 then 48 + n else 87 + n).

(** One character of [repr(s)] when [q] is the quote [repr] chose. *)
Definition repr_char (q c : ascii) : string :=
  let n := char_code c in
  if Nat.eqb n 92 then String "092"%char (String "092"%char EmptyString)
  else if Ascii.eqb c q then String "092"%char (String c EmptyString)
  else if Nat.eqb n 9 then String "092"%char "t"
  else if Nat.eqb n 10 then String "092"%char "n"
  else if Nat.eqb n 13 then String "092"%char "r"
  else if Nat.ltb n 32 || Nat.eqb n 127 || (Nat.leb 128 n && Nat.leb n 160)
          || Nat.eqb n 173
  then String "092"%char (String "x"%char
         (String (hex_digit (n / 16)) (String (hex_digit (n mod 16)) EmptyString)))
  else String c EmptyString.

Fixpoint repr_chars (q : ascii) (s : string) : string :=
  match s with
  | EmptyString => EmptyString
  | String c t => repr_char q c +++ repr_chars q t
  end.

(** [repr(s)]: single quotes, unless [s] contains a single quote and no
    double quote. *)
Definition py_repr (s : string) : string :=
  let q := if str_contains "'" s && negb (str_contains (String "034"%char EmptyString) s)
           then "034"%char else "039"%char in
  String q (repr_chars q s +++ String q EmptyString).

Definition digit_val (c : ascii) : option Z :=
  let n := char_code c in
  if Nat.leb 48 n && Nat.leb n 57 then Some (Z.of_nat (n - 48)) else None.

(** The digits after the first one; an underscore must be followed by a
    digit. *)
Fixpoint parse_digits (l : list ascii) (acc : Z) : option Z :=
  match l with
  | [] => Some acc
  | c :: t =>
      match digit_val c with
      | Some d => parse_digits t (acc * 10 + d)
      | None =>
          if Ascii.eqb c "_" then
            match t with
            | c' :: t' =>
                match digit_val c' with
                | Some d => parse_digits t' (acc * 10 + d)
                | None => None
                end
            | [] => None
            end
          else None
      end
  end.

Definition parse_uint (l : list ascii) : option Z :=
  match l with
  | c :: t =>
      match digit_val c with
      | Some d => parse_digits t d
      | None => None
      end
  | [] => None
  end.

(** The literal [int(s)] accepts in base 10: surrounding white space, an
    optional sign, digits with single underscores between them. *)
Definition int_of_str (s : string) : option Z :=
  match list_ascii_of_string (strip s) with
  | "+"%char :: t => parse_uint t
  | "-"%char :: t => option_map Z.opp (parse_uint t)
  | l => parse_uint l
  end.

(** [int(v)] *)
Definition py_int (v : pyval) : res Z :=
  match v with
  | PInt z => Ok z
  | PBool b => Ok (if b then 1 else 0)%Z
  | PNone => Raise (PyExn "TypeError"
      "int() argument must be a string, a bytes-like object or a real number, not 'NoneType'")
  | PStr s =>
      match int_of_str s with
      | Some z => Ok z
      | None => Raise (PyExn "ValueError"
                        ("invalid literal for int() with base 10: " +++ py_repr s))
      end
  end.

(** [d[k]] *)
Definition dict_index (d : dict) (k : string) : res pyval :=
  match dict_lookup d k with
  | Some v => Ok v
  | None => Raise (PyExn "KeyError" (py_repr k))
  end.

(** [k in d] *)
Definition dict_has (d : dict) (k : string) : bool :=
  match dict_lookup d k with Some _ => true | None => false end.

(** [str(v) if v is not None else default] *)
Definition str_or (v : pyval) (default : string) : string :=
  match v with PNone => default | _ => py_str v end.

(** [s in options] and [options.index(s)] *)
Fixpoint str_index (s : string) (options : list string) : option nat :=
  match options with
  | [] => None
  | o :: t => if String.eqb s o then Some 0 else option_map S (str_index s t)
  end.

(** ** [st.session_state] *)

(** The session state as a list of bindings, one per key. *)
Definition sstate : Type := dict.

(** [del st.session_state[k]] when [k] is present *)
Definition ss_del (k : string) (s : sstate) : sstate :=
  filter (fun kv => negb (String.eqb (fst kv) k)) s.

(** [st.session_state[k] = v] *)
Definition ss_put (k : string) (v : pyval) (s : sstate) : sstate :=
  (k, v) :: ss_del k s.

(** Code that reads and writes the session state and may raise: an
    exception leaves the updates made before it. *)
Definition stm (A : Type) : Type := sstate -> res A * sstate.

Definition sret {A} (a : A) : stm A := fun s => (Ok a, s).

Definition sbind {A B} (m : stm A) (k : A -> stm B) : stm B :=
  fun s => match m s with
           | (Ok a, s') => k a s'
           | (Raise e, s') => (Raise e, s')
           end.

Definition slift {A} (r : res A) : stm A := fun s => (r, s).

Definition sput (k : string) (v : pyval) : stm unit := fun s => (Ok tt, ss_put k v s).

Definition sdel_if_present (k : string) : stm unit := fun s => (Ok tt, ss_del k s).

Definition sget (k : string) : stm (option pyval) := fun s => (Ok (dict_lookup s k), s).

Definition swhen (b : bool) (m : stm unit) : stm unit := if b then m else sret tt.

Notation "x <<- m ;;; k" := (sbind m (fun x => k))
  (at level 61, m at next level, right associativity).
Notation "m >>> k" := (sbind m (fun _ => k))
  (at level 61, right associativity).

Fixpoint sforM_from {A} (i : Z) (l : list A) (f : Z -> A -> stm unit) : stm unit :=
  match l with
  | [] => sret tt
  | x :: t => f i x >>> sforM_from (i + 1)%Z t f
  end.

(** ** [apply_template_to_session_state] *)

(** A template as [MongoManager.save_template] stores it (the [_id] apart). *)
Record template : Type := Template {
  tpl_name : string;
  tpl_config : dict;
  tpl_header_config : dict;
  tpl_layers : list dict;
  tpl_footer_config : dict;
  tpl_subscription_config : option dict
}.

(** [if key in d: st.session_state[skey] = d[key]] *)
Definition copy_raw (d : dict) (key skey : string) : stm unit :=
  swhen (dict_has d key) (sput skey (dict_get d key PNone)).

(** [if key in d: st.session_state[skey] = int(d[key])] *)
Definition copy_int (d : dict) (key skey : string) : stm unit :=
  swhen (dict_has d key) (n <<- slift (py_int (dict_get d key PNone)) ;;; sput skey (PInt n)).

(** [if key in d: st.session_state[skey] = bool(d[key])] *)
Definition copy_bool (d : dict) (key skey : string) : stm unit :=
  swhen (dict_has d key) (sput skey (PBool (truthy (dict_get d key PNone)))).

(** [if key in d: st.session_state[skey] = str(d[key]) if d[key] is not None else default] *)
Definition copy_str (d : dict) (key skey default : string) : stm unit :=
  swhen (dict_has d key) (sput skey (PStr (str_or (dict_get d key PNone) default))).

(** The image-source block, written out three times in the source: the URL
    wins when it is truthy and not blank, then the base64 data. *)
Definition load_image_source (url b64 : pyval) (url_key b64_key source_key : string) : stm unit :=
  if truthy url && str_truthy (strip (py_str url)) then
    sput url_key (PStr (strip (py_str url))) >>> sput source_key (PStr "External URL")
  else if truthy b64 && str_truthy (strip (py_str b64)) then
    sput b64_key (PStr (strip (py_str b64))) >>> sput source_key (PStr "Upload Image (Base64)")
  else sret tt.

(** A text-area value: stored under a temporary key, the widget key deleted,
    then set. *)
Definition reset_text (d : dict) (key temp_key skey : string) : stm unit :=
  swhen (dict_has d key)
    (let v := PStr (str_or (dict_get d key PNone) "") in
     sput temp_key v >>> sdel_if_present skey >>> sput skey v).

Definition font_options : list string :=
  ["Oswald, sans-serif"; "Arial, sans-serif"; "Helvetica, sans-serif";
   "Georgia, serif"; "Times New Roman, serif"; "Verdana, sans-serif";
   "Courier New, monospace"; "Trebuchet MS, sans-serif"; "Comic Sans MS, cursive"].

Definition apply_config (config : dict) : stm unit :=
  copy_str config "email_subject" "Email Subject" "" >>>
  copy_int config "num_layers" "Number of Layers" >>>
  copy_int config "max_width" "Maximum Newsletter Width (px)" >>>
  swhen (dict_has config "font_family")
    (let font_family_str := str_or (dict_get config "font_family" PNone) "" in
     match str_index font_family_str font_options with
     | Some n => sput "Font Family" (PInt (Z.of_nat n))
     | None => sput "Font Family" (PInt 0)
     end) >>>
  copy_str config "background_color" "Background Color" "#FFFFFF" >>>
  copy_str config "text_color" "Text Color" "#000000" >>>
  copy_bool config "include_subscription" "Include Subscription Section".

(** The five header style entries test one key and read another. *)
Definition apply_header (hc : dict) : stm unit :=
  copy_raw hc "pre_header_text" "pre_header_text" >>>
  copy_raw hc "header_bg_color" "header_bg_color" >>>
  load_image_source (dict_get hc "header_image_url" PNone)
    (dict_get hc "header_image_base64" PNone)
    "header_image_url" "header_image_base64" "header_image_source" >>>
  copy_int hc "image_width" "header_image_width" >>>
  copy_str hc "header_title" "header_title" "" >>>
  reset_text hc "header_text" "_header_text_temp" "header_text" >>>
  swhen (dict_has hc "header_title_color")
    (sput "header_title_color" (PStr (str_or (dict_get hc "title_color" PNone) "#000000"))) >>>
  swhen (dict_has hc "header_title_font_size")
    (v <<- slift (dict_index hc "title_font_size") ;;;
     n <<- slift (py_int v) ;;; sput "header_title_font_size" (PInt n)) >>>
  swhen (dict_has hc "header_title_bold")
    (v <<- slift (dict_index hc "title_bold") ;;; sput "header_title_bold" (PBool (truthy v))) >>>
  swhen (dict_has hc "header_text_color")
    (sput "header_text_color" (PStr (str_or (dict_get hc "text_color" PNone) "#000000"))) >>>
  swhen (dict_has hc "header_text_font_size")
    (v <<- slift (dict_index hc "text_font_size") ;;;
     n <<- slift (py_int v) ;;; sput "header_text_font_size" (PInt n)).

(** The body of [for i, layer in enumerate(layers, start=1)]. *)
Definition apply_layer (i : Z) (layer : dict) : stm unit :=
  let k (name : string) := name +++ "_" +++ z_str i in
  swhen (dict_has layer "order")
    (match dict_get layer "order" PNone with
     | PNone => sput (k "layer_order") (PInt i)
     | v => n <<- slift (py_int v) ;;; sput (k "layer_order") (PInt n)
     end) >>>
  copy_raw layer "title" (k "title") >>>
  copy_raw layer "subtitle" (k "subtitle") >>>
  copy_raw layer "subtitle2" (k "subtitle2") >>>
  reset_text layer "content" ("_" +++ k "content" +++ "_temp") (k "content") >>>
  load_image_source (dict_get layer "image_url" PNone) (dict_get layer "image_base64" PNone)
    (k "image_url") (k "image_base64") (k "image_source") >>>
  swhen (dict_has layer "image_alignment")
    (sput (k "alignment")
       (PInt (if String.eqb (lower (py_str (dict_get layer "image_alignment" PNone))) "left"
              then 0 else 1))) >>>
  copy_int layer "image_width" (k "image_width") >>>
  copy_int layer "padding" (k "padding") >>>
  copy_raw layer "link_url" (k "link_url") >>>
  copy_raw layer "title_color" (k "title_color") >>>
  copy_raw layer "subtitle_color" (k "subtitle_color") >>>
  copy_raw layer "subtitle2_color" (k "subtitle2_color") >>>
  copy_int layer "title_font_size" (k "title_font_size") >>>
  copy_bool layer "title_bold" (k "title_bold") >>>
  copy_int layer "subtitle_font_size" (k "subtitle_font_size") >>>
  copy_int layer "subtitle2_font_size" (k "subtitle2_font_size") >>>
  copy_bool layer "subtitle_bold" (k "subtitle_bold") >>>
  copy_bool layer "subtitle2_bold" (k "subtitle2_bold") >>>
  copy_int layer "content_font_size" (k "content_font_size") >>>
  copy_raw layer "content_color" (k "content_color").

(** [footer_pos_map.get(str(raw).strip().lower(), "Above Text") if raw is not None else "Above Text"] *)
Definition normalize_footer_pos (raw : pyval) : string :=
  match raw with
  | PNone => "Above Text"
  | _ =>
      let s := lower (strip (py_str raw)) in
      if String.eqb s "above text" then "Above Text"
      else if String.eqb s "after text" then "After Text"
      else "Above Text"
  end.

(** [alignment_map.get(s, 0)] *)
Definition footer_alignment_index (s : string) : Z :=
  if String.eqb s "Left" then 0
  else if String.eqb s "Center" then 1
  else if String.eqb s "Right" then 2
  else 0.

Definition social_networks : list string := ["facebook"; "linkedin"; "xing"; "instagram"].

Definition apply_social_network (fc : dict) (net : string) : stm unit :=
  copy_raw fc (net +++ "_url") ("footer_" +++ net) >>>
  swhen (dict_has fc (net +++ "_image_base64")
         && truthy (dict_get fc (net +++ "_image_base64") PNone))
    (sput ("footer_" +++ net +++ "_image_base64") (dict_get fc (net +++ "_image_base64") PNone)).

Fixpoint sforM {A} (l : list A) (f : A -> stm unit) : stm unit :=
  match l with
  | [] => sret tt
  | x :: t => f x >>> sforM t f
  end.

Definition apply_footer (fc : dict) : stm unit :=
  copy_raw fc "footer_bg_color" "footer_bg_color" >>>
  swhen (dict_has fc "footer_image_position")
    (sput "footer_image_position"
       (PStr (normalize_footer_pos (dict_get fc "footer_image_position" PNone)))) >>>
  load_image_source (dict_get fc "footer_image_url" PNone) (dict_get fc "footer_image_base64" PNone)
    "footer_image_url" "footer_image_base64" "footer_image_source" >>>
  copy_int fc "image_width" "footer_image_width" >>>
  copy_str fc "footer_image_link_url" "footer_image_link_url" "" >>>
  swhen (dict_has fc "footer_alignment")
    (sput "footer_alignment"
       (PInt (footer_alignment_index (py_str (dict_get fc "footer_alignment" PNone))))) >>>
  copy_str fc "company_name" "footer_company_name" "" >>>
  copy_str fc "address" "footer_address" "" >>>
  copy_str fc "directors" "footer_directors" "" >>>
  copy_raw fc "company_name_color" "footer_company_name_color" >>>
  copy_int fc "company_name_size" "footer_company_name_size" >>>
  copy_bool fc "company_name_bold" "footer_company_name_bold" >>>
  copy_str fc "address_color" "footer_address_color" "#000000" >>>
  copy_int fc "address_size" "footer_address_size" >>>
  copy_bool fc "address_bold" "footer_address_bold" >>>
  copy_str fc "directors_color" "footer_directors_color" "#000000" >>>
  copy_int fc "directors_size" "footer_directors_size" >>>
  copy_bool fc "directors_bold" "footer_directors_bold" >>>
  (let has_social_images :=
     existsb (fun net => truthy (dict_get fc (net +++ "_image_base64") PNone)) social_networks in
   if dict_has fc "social_media_type" then
     let social_media_type_str := py_str (dict_get fc "social_media_type" PNone) in
     if has_social_images then sput "footer_social_type" (PStr "Images")
     else sput "footer_social_type"
            (PStr (if existsb (String.eqb social_media_type_str) ["URLs Only"; "Images"]
                   then social_media_type_str else "URLs Only"))
   else if has_social_images then sput "footer_social_type" (PStr "Images")
   else sret tt) >>>
  copy_raw fc "social_media_label" "footer_social_label" >>>
  copy_raw fc "social_label_color" "footer_social_label_color" >>>
  copy_int fc "social_label_size" "footer_social_label_size" >>>
  copy_bool fc "social_label_bold" "footer_social_label_bold" >>>
  swhen (dict_has fc "social_image_width")
    (match dict_get fc "social_image_width" PNone with
     | PNone => sret tt
     | width => n <<- slift (py_int width) ;;; sput "footer_social_image_width" (PInt n)
     end) >>>
  sforM social_networks (apply_social_network fc).

Definition apply_subscription (sub : option dict) : stm unit :=
  match sub with
  | Some sc =>
      swhen (dict_truthy sub)
        (sforM ["company_name"; "address"; "copyright_text"; "disclaimer_text";
                "unsubscribe_link"; "view_online_link"; "footer_color"]
           (fun key => copy_raw sc key key))
  | None => sret tt
  end.

(** [apply_template_to_session_state(template_data)] for a document
    [load_template_data] returned. *)
Definition apply_template_to_session_state (t : template) : stm unit :=
  sput "loaded_template_name" (PStr (tpl_name t)) >>>
  apply_config (tpl_config t) >>>
  apply_header (tpl_header_config t) >>>
  sforM_from 1 (tpl_layers t) apply_layer >>>
  apply_footer (tpl_footer_config t) >>>
  apply_subscription (tpl_subscription_config t).

(** ** [MongoManager] *)

(** The [templates] collection: the documents in natural order, and
    whether the server answers. *)
Record mongo_server : Type := MongoServer {
  server_up : bool;
  server_docs : list template
}.

(** A manager and the server it talks to; [collection_set] is
    [self.collection is not None]. *)
Record mongo_world : Type := MongoWorld {
  collection_set : bool;
  server : mongo_server
}.

(** What a method returns, the world after it, and the messages it shows
    with [st.error]. *)
Definition mongo_op (A : Type) : Type := mongo_world -> A * mongo_world * list string.

Fixpoint names_unique (docs : list template) : bool :=
  match docs with
  | [] => true
  | t :: rest =>
      negb (existsb (fun u => String.eqb (tpl_name u) (tpl_name t)) rest) && names_unique rest
  end.

(** [update_one({'name': name}, {'$set': template_data}, upsert=True)]: the
    first document with the name gets every field of the template, or the
    template is inserted. *)
Fixpoint upsert_template (t : template) (docs : list template) : list template :=
  match docs with
  | [] => [t]
  | u :: rest =>
      if String.eqb (tpl_name u) (tpl_name t) then t :: rest
      else u :: upsert_template t rest
  end.

(** [find_one({'name': name})] *)
Definition find_template (name : string) (docs : list template) : option template :=
  find (fun u => String.eqb (tpl_name u) name) docs.

(** [delete_one({'name': name})]: the remaining documents and [deleted_count]. *)
Fixpoint delete_first (name : string) (docs : list template) : list template * Z :=
  match docs with
  | [] => ([], 0%Z)
  | u :: rest =>
      if String.eqb (tpl_name u) name then (rest, 1%Z)
      else let '(rest', n) := delete_first name rest in (u :: rest', n)
  end.

Definition with_docs (w : mongo_world) (docs : list template) : mongo_world :=
  MongoWorld (collection_set w) (MongoServer (server_up (server w)) docs).

Section MongoManager.

(** The message of the [ServerSelectionTimeoutError] a call raises when the
    server does not answer. *)
Variable timeout_msg : string.
(** The message of the error [create_index("name", unique=True)] raises when
    stored documents share a name. *)
Variable index_error_msg : string.
(** How the server answers a write of the template: [None] when it accepts
    it, otherwise the exception [update_one] raises (a document BSON cannot
    encode or that is too large, a duplicate key, ...). *)
Variable write_error : template -> option pyexn.

(** [connect()]: [server_info] raises a [ConnectionFailure] when the server
    does not answer; [self.collection] is set before [create_index] runs. *)
Definition connect : mongo_op bool := fun w =>
  if server_up (server w) then
    let w' := MongoWorld true (server w) in
    if names_unique (server_docs (server w)) then (true, w', [])
    else (false, w', ["Error connecting to MongoDB: " +++ index_error_msg])
  else (false, w, []).

(** [if self.collection is None: if not self.connect(): return fallback] *)
Definition ensure_connected {A} (fallback : A) (body : mongo_op A) : mongo_op A := fun w =>
  if collection_set w then body w
  else
    match connect w with
    | (true, w', msgs) => let '(a, w'', msgs') := body w' in (a, w'', msgs ++ msgs')
    | (false, w', msgs) => (fallback, w', msgs)
    end.

Definition save_template (name : string) (config header_config : dict) (layers : list dict)
    (footer_config : dict) (subscription_config : option dict) : mongo_op bool :=
  ensure_connected false (fun w =>
    let t := Template name config header_config layers footer_config subscription_config in
    if negb (server_up (server w)) then (false, w, ["Error saving template: " +++ timeout_msg])
    else
      match write_error t with
      | Some e =>
          if String.eqb (exn_class e) "DuplicateKeyError" then
            (false, w, ["Template name '" +++ name +++ "' already exists. Please use a different name."])
          else (false, w, ["Error saving template: " +++ exn_msg e])
      | None => (true, with_docs w (upsert_template t (server_docs (server w))), [])
      end).

Definition load_templates : mongo_op (list string) :=
  ensure_connected [] (fun w =>
    if negb (server_up (server w)) then ([], w, ["Error loading templates: " +++ timeout_msg])
    else (map tpl_name (server_docs (server w)), w, [])).

Definition load_template_data (name : string) : mongo_op (option template) :=
  ensure_connected None (fun w =>
    if negb (server_up (server w)) then (None, w, ["Error loading template: " +++ timeout_msg])
    else (find_template name (server_docs (server w)), w, [])).

Definition delete_template (name : string) : mongo_op bool :=
  ensure_connected false (fun w =>
    if negb (server_up (server w)) then (false, w, ["Error deleting template: " +++ timeout_msg])
    else
      let '(docs', deleted_count) := delete_first name (server_docs (server w)) in
      (Z.gtb deleted_count 0, with_docs w docs', [])).

End MongoManager.

(** ** The download file name and the duplicate-order message of [main] *)


(** [sep.join(parts)] *)
Fixpoint join_str (sep : string) (parts : list string) : string :=
  match parts with
  | [] => EmptyString
  | [p] => p
  | p :: t => p +++ sep +++ join_str sep t
  end.

Fixpoint insert_z (x : Z) (l : list Z) : list Z :=
  match l with
  | [] => [x]
  | y :: t => if Z.leb x y then x :: l else y :: insert_z x t
  end.

(** [sorted(l)] on integers. *)
Fixpoint sort_z (l : list Z) : list Z :=
  match l with
  | [] => []
  | x :: t => insert_z x (sort_z t)
  end.

(** [[order for order in set(orders) if orders.count(order) > 1]], where
    [set_orders] is the order in which the set yields its elements. *)
Definition duplicate_orders (set_orders orders : list Z) : list Z :=
  filter (fun o => Nat.ltb 1 (count_occ Z.eq_dec orders o)) set_orders.

(** [', '.join(map(str, sorted(duplicate_orders)))] *)
Definition duplicate_orders_text (set_orders orders : list Z) : string :=
  join_str ", " (map z_str (sort_z (duplicate_orders set_orders orders))).

(** * Vocabulary of the properties *)

(** A linked cell: its opening [<td>], the anchor, the cell's content, and
    the closing tags. *)
Definition wrap_cell (link : string) (cell : string * list string) : list string :=
  fst cell :: link_open link :: snd cell ++ ["</a>"; "</td>"].

(** An unlinked cell: its opening [<td>], its content and [</td>]. *)
Definition plain_cell (cell : string * list string) : list string :=
  fst cell :: snd cell ++ ["</td>"].

(** Layer [a] carries a smaller integer [order] than layer [b]. *)
Definition order_lt (a b : dict) : Prop :=
  exists za zb, dict_lookup a "order" = Some (PInt za)
           /\ dict_lookup b "order" = Some (PInt zb) /\ (za < zb)%Z.

(** [s] is one HTML element [<tag ...>inner</tag>]. *)
Definition tag_element (tag inner s : string) : Prop :=
  exists attrs, s = "<" +++ tag +++ attrs +++ ">" +++ inner +++ "</" +++ tag +++ ">".

(** A list of characters that does not start with a space. *)
Definition head_not_space (l : list ascii) : Prop :=
  match l with [] => True | c :: _ => is_space c = false end.

(** Sort keys in order. *)
Definition key_le (x y : Z * dict) : Prop := (fst x <= fst y)%Z.

(** Every layer carries an integer [order]. *)
Definition int_orders (ls : list dict) : Prop :=
  Forall (fun l => exists z, dict_lookup l "order" = Some (PInt z)) ls.

(** Two dictionaries with the same contents, whatever the insertion order. *)
Definition dict_equiv (d1 d2 : dict) : Prop := forall k, dict_lookup d1 k = dict_lookup d2 k.

Definition opt_dict_equiv (d1 d2 : option dict) : Prop :=
  match d1, d2 with
  | None, None => True
  | Some a, Some b => dict_equiv a b
  | _, _ => False
  end.

(** Two argument sets of [generate_html] holding the same configuration. *)
Definition config_equiv (n1 n2 : newsletter) : Prop :=
  subject n1 = subject n2 /\ background_color n1 = background_color n2
  /\ text_color n1 = text_color n2 /\ dict_equiv (header_config n1) (header_config n2)
  /\ Forall2 dict_equiv (layers n1) (layers n2)
  /\ dict_equiv (footer_config n1) (footer_config n2)
  /\ opt_dict_equiv (subscription_config n1) (subscription_config n2)
  /\ max_width n1 = max_width n2 /\ font_family n1 = font_family n2.

(** ** The value types the code relies on *)

(** Absent, or a [str]. *)
Definition str_field (d : dict) (k : string) : bool :=
  match dict_lookup d k with
  | None | Some (PStr _) => true
  | Some _ => false
  end.

(** Absent, a [str], or a false value. *)
Definition str_or_falsy (d : dict) (k : string) : bool :=
  match dict_lookup d k with
  | None | Some (PStr _) => true
  | Some v => negb (truthy v)
  end.

(** A value the code may test and then strip: false, or a [str]. *)
Definition str_or_falsy_val (v : pyval) : Prop := truthy v = false \/ exists s, v = PStr s.

(** Absent, or an [int] (or [bool]). *)
Definition int_field (d : dict) (k : string) : bool :=
  match dict_lookup d k with
  | None | Some (PInt _) | Some (PBool _) => true
  | Some _ => false
  end.

Definition layer_well_typed (l : dict) : bool :=
  str_field l "image_alignment" && str_or_falsy l "image_url"
  && str_or_falsy l "image_base64" && str_field l "link_url" && str_or_falsy l "content".

Definition header_well_typed (hc : dict) : bool :=
  str_field hc "pre_header_text" && str_field hc "header_title" && str_field hc "header_text".

Definition footer_well_typed (fc : dict) : bool :=
  str_field fc "footer_alignment" && str_or_falsy fc "address" && str_or_falsy fc "directors"
  && str_or_falsy fc "footer_image_link_url"
  && (negb (py_eq (dict_get fc "social_media_type" (PStr "URLs Only")) (PStr "Images"))
      || int_field fc "social_image_width").

Definition subscription_well_typed (sc : dict) : bool :=
  str_or_falsy sc "copyright_text" && str_field sc "company_name".

(** Every value the generator calls a string method on is a string (as the
    form widgets produce them); numbers, colors and flags are unconstrained. *)
Definition well_typed (nl : newsletter) : bool :=
  match font_family nl with PStr _ => true | _ => false end
  && header_well_typed (header_config nl)
  && forallb layer_well_typed (layers nl)
  && footer_well_typed (footer_config nl)
  && match subscription_config nl with
     | Some sc => subscription_well_typed sc
     | None => true
     end.

(** ** Session-state effects *)

(** After [m], the key [k] holds either what it held before or a value
    satisfying [Q], whether [m] returns or raises. *)
Definition confines {A} (Q : pyval -> Prop) (k : string) (m : stm A) : Prop :=
  forall s, dict_lookup (snd (m s)) k = dict_lookup s k \/
            exists v, dict_lookup (snd (m s)) k = Some v /\ Q v.

(** When [m] returns, the key [k] holds [v]. *)
Definition sets {A} (k : string) (v : pyval) (m : stm A) : Prop :=
  forall s a, fst (m s) = Ok a -> dict_lookup (snd (m s)) k = Some v.

(** The keys of the dictionary [render_header_config] returns, which is what
    [main] saves as [header_config]. *)
Definition render_header_config_keys : list string :=
  ["header_title"; "header_text"; "header_image_base64"; "header_image_url";
   "pre_header_text"; "header_bg_color"; "image_width"; "title_font_size";
   "title_color"; "title_bold"; "text_font_size"; "text_color"].

(** The session keys of the header title and text style widgets. *)
Definition header_style_keys : list string :=
  ["header_title_color"; "header_title_font_size"; "header_title_bold";
   "header_text_color"; "header_text_font_size"].

(** The two options of the image-source radio buttons. *)
Definition image_source_value (v : pyval) : Prop :=
  v = PStr "External URL" \/ v = PStr "Upload Image (Base64)".

(** * Sample inputs *)

(** A Pillow stand-in: an image is its mode and format; the bytes
    ["PNG"] decode to a palette-less RGB PNG, ["JPG"] to a CMYK JPEG, and
    anything else is not an image. *)
Definition sample_pil : pil :=
  {| pil_image := string * pyval;
     pil_mode := fst;
     pil_format := snd;
     pil_open := fun b =>
       match b with
       | [Byte.x50; Byte.x4e; Byte.x47] => Ok ("RGB", PStr "PNG")
       | [Byte.x4a; Byte.x50; Byte.x47] => Ok ("CMYK", PStr "JPEG")
       | _ => Raise (PyExn "UnidentifiedImageError" "cannot identify image file")
       end;
     pil_convert := fun i m => Ok (m, snd i);
     pil_save := fun _ fmt =>
       match fmt with SavePNG _ => Ok [Byte.x01] | SaveJPEG _ => Ok [Byte.x02] end;
     b64encode := fun b => match b with [Byte.x01] => "AQ==" | _ => "Ag==" end |}.

Definition sample_header : dict :=
  [("pre_header_text", PStr "   "); ("header_title", PStr "Hello")].

Definition sample_layers : list dict :=
  [[("order", PInt 3); ("title", PStr "Third")];
   [("order", PInt 1); ("title", PStr "Welcome"); ("content", PStr ("Hi" +++ newline +++ "there"))];
   [("order", PInt 2); ("title", PStr "Second"); ("image_url", PStr " https://x.test/a.png ");
    ("link_url", PStr "https://x.test")]].

(** A layer whose link is a single space, and the linked layer of the
    sample. *)
Definition sample_blank_link_layer : dict := [("title", PStr "T"); ("link_url", PStr " ")].

Definition sample_linked_layer : dict := nth 2 sample_layers [].

Definition sample_newsletter : newsletter :=
  Newsletter (PStr "News") (PStr "#ffffff") (PStr "#333333") sample_header sample_layers
    [("company_name", PStr "Acme")] None (PInt 5000) (PStr "Oswald, sans-serif").

(** The sample header, built in the other key order. *)
Definition sample_header_reordered : dict :=
  [("header_title", PStr "Hello"); ("pre_header_text", PStr "   ")].

(** A header configuration as [render_header_config] returns it, with both
    an image URL and embedded image data. *)
Definition sample_saved_header : dict :=
  [("header_title", PStr "Hello"); ("header_text", PStr "<p>Hi</p>");
   ("header_image_base64", PStr "data:image/png;base64,AQ==");
   ("header_image_url", PStr " https://x.test/h.png "); ("pre_header_text", PStr "");
   ("header_bg_color", PStr "#ffffff"); ("image_width", PInt 600);
   ("title_font_size", PInt 32); ("title_color", PStr "#ff0000"); ("title_bold", PBool false);
   ("text_font_size", PInt 18); ("text_color", PStr "#333333")].

Definition sample_template : template :=
  Template "Weekly"
    [("email_subject", PStr "Weekly news"); ("num_layers", PInt 3);
     ("font_family", PStr "Georgia, serif")]
    sample_saved_header sample_layers [("footer_image_position", PStr " after TEXT ")] None.

(** A stored template whose layer count is not a number. *)
Definition sample_bad_template : template :=
  Template "Broken" [("email_subject", PStr "Hi"); ("num_layers", PStr "three")] [] [] [] None.

(** A server that accepts every write. *)
Definition sample_accept (t : template) : option pyexn := None.

Definition sample_world : mongo_world := MongoWorld false (MongoServer true [sample_template]).

Definition sample_down_world : mongo_world :=
  MongoWorld true (MongoServer false [sample_template]).

(** A collection filled before the unique index existed. *)
Definition sample_dup_world : mongo_world :=
  MongoWorld false (MongoServer true [sample_template; sample_template]).

(** * Properties *)

(** ** Basic facts *)

Lemma strip_empty : strip "" = "".
Proof. reflexivity. Qed.

Lemma str_truthy_nonempty (s : string) : s <> "" -> str_truthy s = true.
Proof. destruct s; [congruence | reflexivity]. Qed.

Lemma strip_nonblank_truthy (u : string) : strip u <> "" -> str_truthy u = true.
Proof. intros H. destruct u; [contradiction | reflexivity]. Qed.

Lemma bind_ok {A B} (m : res A) (k : A -> res B) (b : B) :
  bind m k = Ok b -> exists a, m = Ok a /\ k a = Ok b.
Proof. destruct m as [a|e]; simpl; [eauto | discriminate]. Qed.

Ltac inv_bind H :=
  let a := fresh "a" in let Ha := fresh "Ha" in let Hk := fresh "Hk" in
  apply bind_ok in H; destruct H as [a [Ha Hk]].

(** Splits every successful [bind] among the hypotheses. *)
Ltac bind_inv :=
  repeat match goal with H : bind _ _ = Ok _ |- _ => inv_bind H; cbn beta in * end;
  repeat match goal with H : Ok _ = Ok _ |- _ => injection H; clear H; intro H end.

(** Membership of an element in a list built by [::] and [++]. *)
Ltac in_solve :=
  first [ apply in_eq
        | apply in_cons; in_solve
        | apply in_or_app; first [ left; in_solve | right; in_solve ] ].

(** [strip] is idempotent. *)

Lemma drop_space_head (l : list ascii) : head_not_space (drop_space l).
Proof.
  induction l as [|c t IH]; simpl; [exact I|].
  destruct (is_space c) eqn:E; [exact IH | simpl; exact E].
Qed.

Lemma drop_space_fixed (l : list ascii) : head_not_space l -> drop_space l = l.
Proof. destruct l as [|c t]; simpl; [reflexivity|]. intros E. rewrite E. reflexivity. Qed.

Lemma drop_space_suffix (l : list ascii) : exists p, l = p ++ drop_space l.
Proof.
  induction l as [|c t [p IH]]; simpl; [exists []; reflexivity|].
  destruct (is_space c); [exists (c :: p); simpl; congruence | exists []; reflexivity].
Qed.

Lemma strip_list_head (l : list ascii) :
  head_not_space (rev (drop_space (rev (drop_space l)))).
Proof.
  destruct (drop_space_suffix (rev (drop_space l))) as [p Hp].
  assert (Hl : drop_space l = rev (drop_space (rev (drop_space l))) ++ rev p).
  { rewrite <- (rev_involutive (drop_space l)) at 1. rewrite Hp at 1.
    rewrite rev_app_distr. reflexivity. }
  pose proof (drop_space_head l) as Hh.
  destruct (rev (drop_space (rev (drop_space l)))) as [|c t]; [exact I|].
  rewrite Hl in Hh. exact Hh.
Qed.

Lemma strip_idempotent (s : string) : strip (strip s) = strip s.
Proof.
  unfold strip. rewrite list_ascii_of_string_of_list_ascii.
  set (r := rev (drop_space (rev (drop_space (list_ascii_of_string s))))).
  rewrite (drop_space_fixed r (strip_list_head _)).
  unfold r. rewrite rev_involutive.
  rewrite (drop_space_fixed _ (drop_space_head _)). reflexivity.
Qed.

(** ** C1: image source precedence *)

Lemma layer_image_src_url (layer : dict) (u : string) :
  dict_get layer "image_url" PNone = PStr u -> strip u <> "" ->
  layer_image_src layer = Ok (PStr (strip u)).
Proof.
  intros Hu Hs. unfold layer_image_src. rewrite Hu. simpl.
  rewrite (strip_nonblank_truthy u Hs). simpl.
  rewrite (str_truthy_nonempty _ Hs). reflexivity.
Qed.

(** C1 (failing input): the header renderer, given both a non-blank
    external URL and embedded data, renders the embedded data URI as the
    image [src], not the URL. *)
Lemma header_prefers_embedded_data :
  let hc := [("header_image_url", PStr "https://x.test/logo.png");
             ("header_image_base64", PStr "data:image/png;base64,AQ==")] in
  header_image_src hc = PStr "data:image/png;base64,AQ==" /\
  generate_header_html (PStr "News") hc =
    Ok (header_image_row (PStr "data:image/png;base64,AQ==") (PStr "News") (PInt 600)
        ++ ["<tr>"; h "<td style=`padding: 20px 20px; background-color: #ffffff;`>"; "&nbsp;";
            "</td>"; "</tr>"; "<tr>";
            h "<td style=`padding: 0 20px 10px 20px; background-color: #ffffff;`>";
            h "<h1 style=`color: #000000; font-size: 28px; margin: 0; font-weight: 700; line-height: 1.3;`>News</h1>";
            "</td>"; "</tr>"]).
Proof. split; vm_compute; reflexivity. Qed.

(** C1: the layer renderer gives a non-blank external URL precedence,
    renders it stripped as the [src] of the image it shows, and uses the
    embedded data only when the URL is absent, false or blank after
    stripping. The header and footer renderers diverge from this rule: they
    use the embedded data whenever it is present and the URL, unstripped,
    only otherwise. *)
Theorem image_source_precedence :
  (forall layer u,
     dict_get layer "image_url" PNone = PStr u -> strip u <> "" ->
     layer_image_src layer = Ok (PStr (strip u))) /\
  (forall layer tc u al parts,
     dict_get layer "image_url" PNone = PStr u -> strip u <> "" ->
     py_lower (dict_get layer "image_alignment" (PStr "left")) = Ok al ->
     (al = "left" \/ al = "right") ->
     generate_layer_html layer tc = Ok parts ->
     In (layer_img (PStr (strip u)) (py_or (dict_get layer "title" (PStr "")) (PStr "Layer Image"))
           (dict_get layer "image_width" (PInt 210))) parts) /\
  (forall layer,
     (truthy (dict_get layer "image_url" PNone) = false
      \/ exists u, dict_get layer "image_url" PNone = PStr u /\ strip u = "") ->
     truthy (dict_get layer "image_base64" PNone) = true ->
     layer_image_src layer = Ok (dict_get layer "image_base64" PNone)) /\
  (forall hc,
     truthy (dict_get hc "header_image_base64" PNone) = true ->
     header_image_src hc = dict_get hc "header_image_base64" PNone) /\
  (forall hc,
     truthy (dict_get hc "header_image_base64" PNone) = false ->
     truthy (dict_get hc "header_image_url" PNone) = true ->
     header_image_src hc = dict_get hc "header_image_url" PNone) /\
  (forall fc,
     truthy (dict_get fc "footer_image_base64" PNone) = true ->
     footer_image_src fc = dict_get fc "footer_image_base64" PNone) /\
  (forall fc,
     truthy (dict_get fc "footer_image_base64" PNone) = false ->
     truthy (dict_get fc "footer_image_url" PNone) = true ->
     footer_image_src fc = dict_get fc "footer_image_url" PNone).
Proof.
  repeat split.
  - exact layer_image_src_url.
  - intros layer tc u al parts Hu Hs Hal Hlr H.
    unfold generate_layer_html in H. rewrite Hal in H. cbn [bind] in H.
    rewrite (layer_image_src_url layer u Hu Hs) in H. cbn [bind] in H.
    inv_bind H. cbn [truthy py_strip bind] in Hk.
    rewrite (str_truthy_nonempty _ Hs), strip_idempotent, (str_truthy_nonempty _ Hs) in Hk.
    cbn [bind andb] in Hk.
    destruct Hlr as [-> | ->]; cbn [String.eqb Ascii.eqb Bool.eqb andb] in Hk;
      destruct (str_truthy a); bind_inv; subst; in_solve.
  - intros layer Hu Hb. unfold layer_image_src.
    destruct Hu as [Hu | [u [Hu Hs]]].
    + rewrite Hu, Hb. reflexivity.
    + rewrite Hu. cbn [truthy py_strip bind]. rewrite Hs. cbn.
      destruct (str_truthy u); rewrite Hb; reflexivity.
  - intros hc Hb. unfold header_image_src. rewrite Hb. reflexivity.
  - intros hc Hb Hu. unfold header_image_src. rewrite Hb, Hu. reflexivity.
  - intros fc Hb. unfold footer_image_src. rewrite Hb. reflexivity.
  - intros fc Hb Hu. unfold footer_image_src. rewrite Hb, Hu. reflexivity.
Qed.

(** C1 (witness): a layer with both a padded URL and embedded data. *)
Lemma image_source_precedence_witness :
  dict_get [("image_url", PStr " https://x.test/a.png ");
            ("image_base64", PStr "data:image/png;base64,AQ==")] "image_url" PNone
    = PStr " https://x.test/a.png "
  /\ strip " https://x.test/a.png " <> ""
  /\ layer_image_src [("image_url", PStr " https://x.test/a.png ");
                      ("image_base64", PStr "data:image/png;base64,AQ==")]
     = Ok (PStr (strip " https://x.test/a.png ")).
Proof.
  assert (Hs : strip " https://x.test/a.png " <> "") by (vm_compute; discriminate).
  split; [reflexivity | split; [exact Hs |]].
  exact (proj1 image_source_precedence
           [("image_url", PStr " https://x.test/a.png ");
            ("image_base64", PStr "data:image/png;base64,AQ==")]
           " https://x.test/a.png " eq_refl Hs).
Defined.

(** ** C2: layers are rendered in ascending [order] *)

Lemma insert_by_key_perm (x : Z * dict) (l : list (Z * dict)) :
  Permutation (insert_by_key x l) (x :: l).
Proof.
  induction l as [|y t IH]; simpl; [reflexivity|].
  destruct (Z.leb (fst x) (fst y)); [reflexivity|].
  rewrite IH. apply perm_swap.
Qed.

Lemma sort_by_key_perm (l : list (Z * dict)) : Permutation (sort_by_key l) l.
Proof.
  induction l as [|x t IH]; simpl; [reflexivity|].
  rewrite insert_by_key_perm. constructor. exact IH.
Qed.

Lemma insert_by_key_sorted (x : Z * dict) (l : list (Z * dict)) :
  Sorted key_le l -> Sorted key_le (insert_by_key x l).
Proof.
  induction 1 as [|y t Ht IH Hhd]; simpl.
  - repeat constructor.
  - destruct (Z.leb (fst x) (fst y)) eqn:E.
    + apply Z.leb_le in E. constructor; [constructor; assumption | constructor; exact E].
    + apply Z.leb_gt in E. constructor; [exact IH|].
      destruct t as [|z t']; simpl.
      * constructor. unfold key_le. lia.
      * destruct (Z.leb (fst x) (fst z)); constructor.
        -- unfold key_le. lia.
        -- exact (HdRel_inv Hhd).
Qed.

Lemma sort_by_key_sorted (l : list (Z * dict)) : StronglySorted key_le (sort_by_key l).
Proof.
  apply Sorted_StronglySorted.
  - intros a b c; unfold key_le; lia.
  - induction l as [|x t IH]; simpl; [constructor|].
    apply insert_by_key_sorted. exact IH.
Qed.

Lemma strongly_sorted_strict (l : list (Z * dict)) :
  StronglySorted key_le l -> NoDup (map fst l) ->
  StronglySorted (fun x y => (fst x < fst y)%Z) l.
Proof.
  induction 1 as [|a t Ht IH Hall]; simpl; intros Hnd; constructor.
  - inversion Hnd; subst. apply IH. assumption.
  - inversion Hnd as [|? ? Hnin Hnd']; subst.
    rewrite Forall_forall in *. intros y Hy.
    specialize (Hall y Hy). unfold key_le in Hall.
    assert (fst a <> fst y).
    { intros Heq. apply Hnin. rewrite Heq. apply in_map. exact Hy. }
    lia.
Qed.

Lemma strongly_sorted_perm_eq {A} (R : A -> A -> Prop)
    (Hirr : forall a, ~ R a a) (Htr : forall a b c, R a b -> R b c -> R a c) :
  forall l1 l2, StronglySorted R l1 -> StronglySorted R l2 -> Permutation l1 l2 -> l1 = l2.
Proof.
  induction l1 as [|a t1 IH]; intros l2 H1 H2 Hp.
  - symmetry. apply Permutation_nil. exact Hp.
  - destruct l2 as [|b t2].
    + apply Permutation_sym, Permutation_nil in Hp. discriminate.
    + apply StronglySorted_inv in H1 as [H1 Hall1].
      apply StronglySorted_inv in H2 as [H2 Hall2].
      assert (Hab : a = b).
      { assert (Ha : In a (b :: t2)) by (apply (Permutation_in _ Hp); left; reflexivity).
        assert (Hb : In b (a :: t1))
          by (apply (Permutation_in _ (Permutation_sym Hp)); left; reflexivity).
        destruct Ha as [Ha | Ha]; [congruence|].
        destruct Hb as [Hb | Hb]; [congruence|].
        rewrite Forall_forall in Hall1, Hall2.
        exfalso. apply (Hirr a). apply (Htr a b a); [apply Hall1 | apply Hall2]; assumption. }
      subst b. f_equal. apply IH; try assumption.
      apply Permutation_cons_inv with a. exact Hp.
Qed.

Lemma order_lt_irrefl (a : dict) : ~ order_lt a a.
Proof. intros (za & zb & Ha & Hb & Hlt). rewrite Ha in Hb. injection Hb as ->. lia. Qed.

Lemma order_lt_trans (a b c : dict) : order_lt a b -> order_lt b c -> order_lt a c.
Proof.
  intros (za & zb & Ha & Hb & Hab) (zb' & zc & Hb' & Hc & Hbc).
  rewrite Hb in Hb'. injection Hb' as <-. exists za, zc. repeat split; auto. lia.
Qed.

Lemma order_keys (ls : list dict) :
  int_orders ls ->
  exists zs, mapM order_key ls = Ok zs
        /\ Forall2 (fun z l => dict_lookup l "order" = Some (PInt z)) zs ls.
Proof.
  induction 1 as [|l t [z Hz] Ht [zs [Hm Hf]]].
  - exists []. split; [reflexivity | constructor].
  - exists (z :: zs). split.
    + simpl. unfold order_key at 1, dict_get at 1. rewrite Hz. simpl. rewrite Hm. reflexivity.
    + constructor; assumption.
Qed.

Lemma sort_layers_spec (ls : list dict) :
  int_orders ls -> NoDup (map (fun l => dict_lookup l "order") ls) ->
  exists sorted, sort_layers ls = Ok sorted /\ Permutation sorted ls
            /\ StronglySorted order_lt sorted.
Proof.
  intros Hint Hnd.
  destruct (order_keys ls Hint) as [zs [Hm Hf]].
  unfold sort_layers. rewrite Hm. simpl.
  set (P := combine zs ls).
  assert (Hcorr : Forall (fun p => dict_lookup (snd p) "order" = Some (PInt (fst p))) P).
  { unfold P. clear -Hf. induction Hf; simpl; constructor; assumption. }
  assert (Hsnd : map snd P = ls).
  { unfold P. clear -Hf. induction Hf; simpl; congruence. }
  assert (Hfst : map (fun l => dict_lookup l "order") ls = map (fun z => Some (PInt z)) (map fst P)).
  { unfold P. clear -Hf. induction Hf; simpl; congruence. }
  assert (HndP : NoDup (map fst P)).
  { rewrite Hfst in Hnd. exact (NoDup_map_inv (fun z => Some (PInt z)) _ Hnd). }
  pose proof (sort_by_key_perm P) as Hperm.
  exists (map snd (sort_by_key P)). split; [reflexivity|]. split.
  - rewrite <- Hsnd at 1. apply Permutation_map. exact Hperm.
  - assert (Hs : StronglySorted (fun x y => (fst x < fst y)%Z) (sort_by_key P)).
    { apply strongly_sorted_strict; [apply sort_by_key_sorted|].
      apply (Permutation_NoDup (Permutation_map fst (Permutation_sym Hperm))). exact HndP. }
    assert (Hc : Forall (fun p => dict_lookup (snd p) "order" = Some (PInt (fst p))) (sort_by_key P)).
    { exact (Permutation_Forall (Permutation_sym Hperm) Hcorr). }
    clear -Hs Hc. induction Hs as [|a t Ht IH Hall]; simpl; constructor.
    + inversion Hc; subst. apply IH. assumption.
    + inversion Hc as [|? ? Ha Ht']; subst. rewrite Forall_map.
      rewrite Forall_forall in *. intros y Hy.
      exists (fst a), (fst y). repeat split; [exact Ha | apply Ht'; exact Hy | apply Hall; exact Hy].
Qed.

Lemma no_duplicate_orders (ls : list dict) (i : Z) :
  int_orders ls -> NoDup (map (fun l => dict_lookup l "order") ls) ->
  has_duplicates (layer_orders_from i ls) = false.
Proof.
  intros Hint. revert i. induction Hint as [|l t [z Hz] Ht IH]; intros i Hnd; [reflexivity|].
  simpl. unfold dict_get at 1. rewrite Hz. simpl in Hnd. rewrite Hz in Hnd.
  inversion Hnd as [|? ? Hnin Hnd']; subst.
  rewrite (IH (i + 1)%Z Hnd'), orb_false_r.
  apply Bool.not_true_iff_false. rewrite existsb_exists. intros [v [Hv Heq]].
  clear IH Hnd Hnd'. revert i Hv. induction Ht as [|l' t' [z' Hz'] Ht' IH']; intros i Hv.
  - destruct Hv.
  - simpl in Hv. unfold dict_get at 1 in Hv. rewrite Hz' in Hv. destruct Hv as [<- | Hv].
    + simpl in Heq. apply Z.eqb_eq in Heq. subst z'. apply Hnin. left. exact Hz'.
    + apply (IH' (fun H => Hnin (or_intror H)) (i + 1)%Z Hv).
Qed.

Lemma with_layers_twice (nl : newsletter) (l1 l2 : list dict) :
  with_layers (with_layers nl l1) l2 = with_layers nl l2.
Proof. destruct nl; reflexivity. Qed.

Lemma layers_with_layers (nl : newsletter) (ls : list dict) : layers (with_layers nl ls) = ls.
Proof. destruct nl; reflexivity. Qed.

Lemma int_orders_perm (l1 l2 : list dict) :
  Permutation l1 l2 -> int_orders l1 -> int_orders l2.
Proof. intros Hp H. exact (Permutation_Forall Hp H). Qed.

Lemma distinct_orders_perm (l1 l2 : list dict) :
  Permutation l1 l2 ->
  NoDup (map (fun l => dict_lookup l "order") l1) ->
  NoDup (map (fun l => dict_lookup l "order") l2).
Proof. intros Hp. apply Permutation_NoDup, Permutation_map. exact Hp. Qed.

Lemma main_generate_sorted (nl : newsletter) :
  int_orders (layers nl) -> NoDup (map (fun l => dict_lookup l "order") (layers nl)) ->
  exists sorted, Permutation sorted (layers nl) /\ StronglySorted order_lt sorted
    /\ main_generate nl = (html <- generate_html (with_layers nl sorted) ;; Ok (Some html)).
Proof.
  intros Hint Hnd.
  destruct (sort_layers_spec _ Hint Hnd) as [sorted [Hs [Hp Hss]]].
  exists sorted. split; [exact Hp | split; [exact Hss |]].
  unfold main_generate, layer_orders.
  rewrite (no_duplicate_orders _ 1 Hint Hnd), Hs. cbn [bind].
  rewrite (no_duplicate_orders sorted 1).
  - reflexivity.
  - exact (int_orders_perm _ _ (Permutation_sym Hp) Hint).
  - exact (distinct_orders_perm _ _ (Permutation_sym Hp) Hnd).
Qed.

(** C2: when every layer carries a distinct integer [order], the document
    [main] renders is the one built from the layers in strictly ascending
    [order] (the layer fragments are concatenated in the list order of that
    sorted list), and permuting the input layer list does not change it. *)
Theorem main_generate_layer_order (nl : newsletter) (L' : list dict)
    (Hint : int_orders (layers nl))
    (Hnd : NoDup (map (fun l => dict_lookup l "order") (layers nl)))
    (Hperm : Permutation (layers nl) L') :
  exists sorted, Permutation sorted (layers nl) /\ StronglySorted order_lt sorted
    /\ main_generate nl = (html <- generate_html (with_layers nl sorted) ;; Ok (Some html))
    /\ main_generate (with_layers nl L') = main_generate nl.
Proof.
  destruct (main_generate_sorted nl Hint Hnd) as [s1 [Hp1 [Hs1 Hm1]]].
  assert (Hint' : int_orders (layers (with_layers nl L'))).
  { rewrite layers_with_layers. exact (int_orders_perm _ _ Hperm Hint). }
  assert (Hnd' : NoDup (map (fun l => dict_lookup l "order") (layers (with_layers nl L')))).
  { rewrite layers_with_layers. exact (distinct_orders_perm _ _ Hperm Hnd). }
  destruct (main_generate_sorted _ Hint' Hnd') as [s2 [Hp2 [Hs2 Hm2]]].
  rewrite layers_with_layers in Hp2.
  assert (Heq : s2 = s1).
  { apply (strongly_sorted_perm_eq order_lt order_lt_irrefl order_lt_trans); try assumption.
    rewrite Hp2, Hp1. symmetry. exact Hperm. }
  subst s2. exists s1. repeat split; try assumption.
  rewrite Hm2, Hm1, with_layers_twice. reflexivity.
Qed.

Lemma sample_int_orders : int_orders (layers sample_newsletter).
Proof. repeat constructor; eexists; reflexivity. Defined.

Lemma sample_distinct_orders :
  NoDup (map (fun l => dict_lookup l "order") (layers sample_newsletter)).
Proof.
  simpl. repeat constructor; simpl; intros H; repeat destruct H as [H | H];
    try discriminate H; exact H.
Defined.

(** C2 (witness): the sample layers, given in reverse. *)
Lemma main_generate_layer_order_witness :
  int_orders (layers sample_newsletter)
  /\ NoDup (map (fun l => dict_lookup l "order") (layers sample_newsletter))
  /\ Permutation (layers sample_newsletter) (rev (layers sample_newsletter))
  /\ exists sorted, Permutation sorted (layers sample_newsletter)
       /\ StronglySorted order_lt sorted
       /\ main_generate sample_newsletter
          = (html <- generate_html (with_layers sample_newsletter sorted) ;; Ok (Some html))
       /\ main_generate (with_layers sample_newsletter (rev (layers sample_newsletter)))
          = main_generate sample_newsletter.
Proof.
  split; [exact sample_int_orders |].
  split; [exact sample_distinct_orders |].
  split; [apply Permutation_rev |].
  exact (main_generate_layer_order sample_newsletter (rev (layers sample_newsletter))
           sample_int_orders sample_distinct_orders (Permutation_rev _)).
Defined.

(** ** C3: generation is deterministic *)

Lemma dict_get_equiv (d1 d2 : dict) :
  dict_equiv d1 d2 -> forall k v, dict_get d1 k v = dict_get d2 k v.
Proof. intros H k v. unfold dict_get. rewrite H. reflexivity. Qed.

Lemma dict_truthy_equiv (d1 d2 : dict) :
  dict_equiv d1 d2 -> dict_truthy (Some d1) = dict_truthy (Some d2).
Proof.
  intros H. destruct d1 as [|[k v] t1], d2 as [|[k' v'] t2]; try reflexivity.
  - specialize (H k'). simpl in H. rewrite String.eqb_refl in H. discriminate.
  - specialize (H k). simpl in H. rewrite String.eqb_refl in H. discriminate.
Qed.

Lemma generate_layer_html_equiv (d1 d2 : dict) (tc : pyval) :
  dict_equiv d1 d2 -> generate_layer_html d1 tc = generate_layer_html d2 tc.
Proof.
  intros H. pose proof (dict_get_equiv _ _ H) as G.
  unfold generate_layer_html, layer_text, layer_image_src. rewrite !G. reflexivity.
Qed.

Lemma generate_header_html_equiv (s : pyval) (d1 d2 : dict) :
  dict_equiv d1 d2 -> generate_header_html s d1 = generate_header_html s d2.
Proof.
  intros H. pose proof (dict_get_equiv _ _ H) as G.
  unfold generate_header_html, generate_header_main, header_image_src. rewrite !G. reflexivity.
Qed.

Lemma generate_footer_html_equiv (d1 d2 : dict) :
  dict_equiv d1 d2 -> generate_footer_html d1 = generate_footer_html d2.
Proof.
  intros H. pose proof (dict_get_equiv _ _ H) as G.
  unfold generate_footer_html, footer_image_src, append_footer_image. rewrite !G. reflexivity.
Qed.

Lemma generate_subscription_html_equiv (d1 d2 : dict) :
  dict_equiv d1 d2 -> generate_subscription_html d1 = generate_subscription_html d2.
Proof.
  intros H. pose proof (dict_get_equiv _ _ H) as G.
  unfold generate_subscription_html. rewrite !G. reflexivity.
Qed.

Lemma layers_html_equiv (l1 l2 : list dict) (tc : pyval) :
  Forall2 dict_equiv l1 l2 ->
  mapM (fun layer => generate_layer_html layer tc) l1
  = mapM (fun layer => generate_layer_html layer tc) l2.
Proof.
  induction 1 as [|a b t1 t2 Hab Ht IH]; [reflexivity|].
  simpl. rewrite (generate_layer_html_equiv _ _ tc Hab), IH. reflexivity.
Qed.

(** C3: [generate_html] is a function of the configuration alone: two calls
    on the same configuration (even with its dictionaries built in a
    different key order) give the same result, so nothing run-dependent
    enters the document. *)
Theorem generate_html_deterministic (n1 n2 : newsletter) :
  config_equiv n1 n2 -> generate_html n1 = generate_html n2.
Proof.
  intros (Hs & Hb & Ht & Hh & Hl & Hf & Hsc & Hw & Hff).
  unfold generate_html, generate_html_parts, document_open.
  rewrite Hs, Hb, Ht, Hw, Hff, (generate_header_html_equiv _ _ _ Hh),
    (layers_html_equiv _ _ _ Hl), (generate_footer_html_equiv _ _ Hf).
  destruct (subscription_config n1) as [sc1|], (subscription_config n2) as [sc2|];
    simpl in Hsc; try contradiction; [|reflexivity].
  rewrite (dict_truthy_equiv _ _ Hsc), (generate_subscription_html_equiv _ _ Hsc).
  reflexivity.
Qed.

Lemma sample_config_equiv :
  config_equiv sample_newsletter
    (Newsletter (PStr "News") (PStr "#ffffff") (PStr "#333333") sample_header_reordered
       sample_layers [("company_name", PStr "Acme")] None (PInt 5000)
       (PStr "Oswald, sans-serif")).
Proof.
  unfold config_equiv; simpl.
  split; [reflexivity | split; [reflexivity | split; [reflexivity |]]].
  split.
  - intros k. simpl.
    destruct (String.eqb_spec k "pre_header_text"), (String.eqb_spec k "header_title");
      subst; try discriminate; reflexivity.
  - split; [repeat constructor; intro; reflexivity |].
    split; [intro; reflexivity |].
    repeat split.
Defined.

(** C3 (witness): the sample newsletter and a copy whose header dictionary
    was built in the other key order. *)
Lemma generate_html_deterministic_witness :
  config_equiv sample_newsletter
    (Newsletter (PStr "News") (PStr "#ffffff") (PStr "#333333") sample_header_reordered
       sample_layers [("company_name", PStr "Acme")] None (PInt 5000)
       (PStr "Oswald, sans-serif"))
  /\ generate_html sample_newsletter
     = generate_html
         (Newsletter (PStr "News") (PStr "#ffffff") (PStr "#333333") sample_header_reordered
            sample_layers [("company_name", PStr "Acme")] None (PInt 5000)
            (PStr "Oswald, sans-serif")).
Proof.
  split; [exact sample_config_equiv |].
  exact (generate_html_deterministic _ _ sample_config_equiv).
Defined.

(** ** C4: the pre-header row and the subscription block are optional *)

(** C4: a header whose [pre_header_text] is empty or whitespace renders as
    the main header rows alone, with no hidden pre-header row; a newsletter
    without a subscription configuration (missing or empty) renders its
    document with no subscription block between the footer and the closing
    tags. *)
Theorem optional_blocks_omitted :
  (forall subject hc pre,
     dict_get hc "pre_header_text" (PStr "") = PStr pre -> strip pre = "" ->
     generate_header_html subject hc = generate_header_main subject hc) /\
  (forall nl,
     dict_truthy (subscription_config nl) = false ->
     generate_html_parts nl =
       (include_google_fonts <- py_in "Oswald" (font_family nl) ;;
        header <- generate_header_html (subject nl) (header_config nl) ;;
        body <- mapM (fun layer => generate_layer_html layer (text_color nl)) (layers nl) ;;
        footer <- generate_footer_html (footer_config nl) ;;
        Ok (document_head (subject nl)
            ++ (if include_google_fonts then [google_fonts_link] else [])
            ++ document_open nl ++ header ++ concat body ++ footer ++ document_close))).
Proof.
  split.
  - intros subject hc pre Hpre Hblank.
    unfold generate_header_html. rewrite Hpre. cbn [py_strip bind]. rewrite Hblank.
    cbn [str_truthy app]. destruct (generate_header_main subject hc); reflexivity.
  - intros nl Hsub. unfold generate_html_parts.
    destruct (py_in "Oswald" (font_family nl)) as [inc|]; [|reflexivity]. cbn [bind].
    destruct (generate_header_html (subject nl) (header_config nl)) as [hd|]; [|reflexivity].
    cbn [bind].
    destruct (mapM _ (layers nl)) as [body|]; [|reflexivity]. cbn [bind].
    destruct (generate_footer_html (footer_config nl)) as [ft|]; [|reflexivity]. cbn [bind].
    destruct (subscription_config nl) as [sc|]; [rewrite Hsub|]; cbn [bind app];
      rewrite <- !app_assoc; reflexivity.
Qed.

(** C4 (witness): the sample header has a blank pre-header text and the
    sample newsletter no subscription configuration. *)
Lemma optional_blocks_omitted_witness :
  generate_header_html (PStr "News") sample_header
    = generate_header_main (PStr "News") sample_header
  /\ generate_html_parts sample_newsletter =
       (include_google_fonts <- py_in "Oswald" (font_family sample_newsletter) ;;
        header <- generate_header_html (subject sample_newsletter)
                    (header_config sample_newsletter) ;;
        body <- mapM (fun layer => generate_layer_html layer (text_color sample_newsletter))
                  (layers sample_newsletter) ;;
        footer <- generate_footer_html (footer_config sample_newsletter) ;;
        Ok (document_head (subject sample_newsletter)
            ++ (if include_google_fonts then [google_fonts_link] else [])
            ++ document_open sample_newsletter ++ header ++ concat body ++ footer
            ++ document_close)).
Proof.
  split.
  - exact (proj1 optional_blocks_omitted (PStr "News") sample_header "   " eq_refl eq_refl).
  - exact (proj2 optional_blocks_omitted sample_newsletter eq_refl).
Defined.

(** ** C5: links are placed inside each cell of a layer *)

(** C5 (counterexample): the link [" "] is non-empty, yet the layer is
    rendered without any anchor, since the code tests the stripped link. *)
Lemma blank_link_not_wrapped :
  dict_get sample_blank_link_layer "link_url" (PStr "") = PStr " " /\ " " <> ""
  /\ exists parts, generate_layer_html sample_blank_link_layer (PStr "#333333") = Ok parts
      /\ forallb (fun s => negb (String.prefix "<a " s)) parts = true.
Proof.
  split; [reflexivity | split; [discriminate |]].
  eexists. split; [vm_compute; reflexivity | vm_compute; reflexivity].
Qed.

(** C5: a layer whose link is non-blank after stripping has each of its
    cells (the image cell when there is one, and the text cell) rendered as
    [wrap_cell]: the cell's [<td>], then an anchor to the stripped link with
    [target="_blank"] and [rel="noopener noreferrer"], the content, [</a>]
    and [</td>]; the outer cell of the layer ([layer_open]) is not wrapped.
    A link that is blank after stripping gives plain cells, with no anchor. *)
Theorem layer_links_wrap_cells (layer : dict) (tc : pyval) (link : string) (parts : list string) :
  dict_get layer "link_url" (PStr "") = PStr link ->
  generate_layer_html layer tc = Ok parts ->
  exists text cells,
    layer_text layer tc = Ok text
    /\ parts = layer_open (dict_get layer "padding" (PInt 30))
               ++ concat (map (if str_truthy (strip link) then wrap_cell (strip link) else plain_cell)
                              cells)
               ++ layer_close
    /\ (cells = [(text_cell_full, text)]
        \/ exists src,
             layer_image_src layer = Ok src
             /\ let w := dict_get layer "image_width" (PInt 210) in
                let img := layer_img src (py_or (dict_get layer "title" (PStr "")) (PStr "Layer Image")) w in
                (cells = [(img_cell_left w, [img]); (text_cell_left, text)]
                 \/ cells = [(text_cell_right, text); (img_cell_right w, [img])])).
Proof.
  intros Hlink H. unfold generate_layer_html in H.
  destruct (py_lower _) as [al|] eqn:Hal; [|discriminate]. cbn [bind] in H.
  destruct (layer_image_src layer) as [src|] eqn:Hsrc; [|discriminate]. cbn [bind] in H.
  rewrite Hlink in H. cbn [py_strip bind] in H.
  destruct (layer_text layer tc) as [text|] eqn:Ht;
    [| destruct (truthy src); [destruct (py_strip src); cbn [bind] in H|];
       repeat (destruct (_ && _); cbn [bind] in H); discriminate].
  exists text.
  destruct (truthy src); [destruct (py_strip src) as [s|]; cbn [bind] in H; [|discriminate]|];
    cbn [bind] in H;
    repeat match type of H with context [if ?b then _ else _] =>
      let E := fresh "E" in destruct b eqn:E; cbn [bind] in H end;
    injection H as <-;
    first
      [ exists [(text_cell_full, text)]; split; [reflexivity|];
        split; [unfold wrap_cell, plain_cell, layer_open; simpl; rewrite <- ?app_assoc; reflexivity
               | left; reflexivity]
      | exists [(img_cell_left (dict_get layer "image_width" (PInt 210)),
                 [layer_img src (py_or (dict_get layer "title" (PStr "")) (PStr "Layer Image"))
                    (dict_get layer "image_width" (PInt 210))]); (text_cell_left, text)];
        split; [reflexivity|];
        split; [unfold wrap_cell, plain_cell, layer_open; simpl; rewrite <- ?app_assoc; reflexivity
               | right; exists src; split; [reflexivity | left; reflexivity]]
      | exists [(text_cell_right, text);
                (img_cell_right (dict_get layer "image_width" (PInt 210)),
                 [layer_img src (py_or (dict_get layer "title" (PStr "")) (PStr "Layer Image"))
                    (dict_get layer "image_width" (PInt 210))])];
        split; [reflexivity|];
        split; [unfold wrap_cell, plain_cell, layer_open; simpl; rewrite <- ?app_assoc; reflexivity
               | right; exists src; split; [reflexivity | right; reflexivity]] ].
Qed.

(** C5 (witness): the linked sample layer, with an image and a link. *)
Lemma layer_links_wrap_cells_witness :
  exists parts,
    generate_layer_html sample_linked_layer (PStr "#333333") = Ok parts
    /\ exists text cells,
      layer_text sample_linked_layer (PStr "#333333") = Ok text
      /\ parts = layer_open (dict_get sample_linked_layer "padding" (PInt 30))
                 ++ concat (map (if str_truthy (strip "https://x.test")
                                 then wrap_cell (strip "https://x.test") else plain_cell) cells)
                 ++ layer_close
      /\ (cells = [(text_cell_full, text)]
          \/ exists src,
               layer_image_src sample_linked_layer = Ok src
               /\ let w := dict_get sample_linked_layer "image_width" (PInt 210) in
                  let img := layer_img src (py_or (dict_get sample_linked_layer "title" (PStr ""))
                                                  (PStr "Layer Image")) w in
                  (cells = [(img_cell_left w, [img]); (text_cell_left, text)]
                   \/ cells = [(text_cell_right, text); (img_cell_right w, [img])])).
Proof.
  set (r := generate_layer_html sample_linked_layer (PStr "#333333")).
  assert (Hr : r = Ok (match r with Ok p => p | Raise _ => [] end)) by (vm_compute; reflexivity).
  exists (match r with Ok p => p | Raise _ => [] end).
  split; [exact Hr |].
  exact (layer_links_wrap_cells sample_linked_layer (PStr "#333333") "https://x.test" _
           eq_refl Hr).
Defined.

(** ** C6: PNG files stay PNG with an alpha-capable mode, others become RGB JPEG *)

(** C6: when Pillow's [convert(m)] gives an image of mode [m], every image
    that [convert_to_base64] encodes (no error shown) is either a PNG (by
    the declared MIME type or the decoded format), kept when its mode is
    [RGBA], [LA] or [P] and converted to [RGBA] otherwise, saved as an
    optimised PNG and returned as a [data:image/png;base64,...] URI; or it
    is not a PNG, is brought to mode [RGB], saved as a JPEG of quality 95
    and returned as a [data:image/jpeg;base64,...] URI. *)
Theorem convert_to_base64_formats (P : pil)
    (Hconv : forall i m i', pil_convert P i m = Ok i' -> pil_mode P i' = m)
    (f : upload) (s : string) (log : list string) :
  convert_to_base64 P (Some f) = (Ok (Some s), log) ->
  log = [] /\
  exists img img' bytes,
    pil_open P (upload_bytes f) = Ok img /\
    ((is_png P f img = true /\ In (pil_mode P img') ["RGBA"; "LA"; "P"]
      /\ (img' = img \/ pil_convert P img "RGBA" = Ok img')
      /\ pil_save P img' (SavePNG true) = Ok bytes
      /\ s = "data:image/png;base64," +++ b64encode P bytes)
     \/ (is_png P f img = false /\ pil_mode P img' = "RGB"
      /\ (img' = img \/ pil_convert P img "RGB" = Ok img')
      /\ pil_save P img' (SaveJPEG 95) = Ok bytes
      /\ s = "data:image/jpeg;base64," +++ b64encode P bytes)).
Proof.
  intros H. unfold convert_to_base64 in H.
  destruct (encode_image P f) as [[bytes mime]|e] eqn:He; [|discriminate].
  injection H as Hs <-. split; [reflexivity|].
  unfold encode_image in He. apply bind_ok in He as [img [Hopen He]].
  exists img.
  destruct (is_png P f img) eqn:Hpng.
  - apply bind_ok in He as [img' [Himg' He]]. apply bind_ok in He as [b [Hsave He]].
    injection He as <- <-.
    exists img', b. split; [exact Hopen|]. left.
    repeat split; [| | exact Hsave | symmetry; exact Hs].
    + destruct (existsb (String.eqb (pil_mode P img)) ["RGBA"; "LA"; "P"]) eqn:Em.
      * injection Himg' as <-. apply existsb_exists in Em as [m [Hm Heq]].
        apply String.eqb_eq in Heq. rewrite Heq. exact Hm.
      * left. destruct (String.eqb (pil_mode P img) "RGB"); symmetry; exact (Hconv _ _ _ Himg').
    + destruct (existsb (String.eqb (pil_mode P img)) ["RGBA"; "LA"; "P"]).
      * left. injection Himg' as <-. reflexivity.
      * right. destruct (String.eqb (pil_mode P img) "RGB"); exact Himg'.
  - apply bind_ok in He as [img' [Himg' He]]. apply bind_ok in He as [b [Hsave He]].
    injection He as <- <-.
    exists img', b. split; [exact Hopen|]. right.
    repeat split; [| | exact Hsave | symmetry; exact Hs].
    + destruct (String.eqb_spec (pil_mode P img) "RGB") as [Eq|].
      * injection Himg' as <-. exact Eq.
      * exact (Hconv _ _ _ Himg').
    + destruct (String.eqb (pil_mode P img) "RGB").
      * left. injection Himg' as <-. reflexivity.
      * right. exact Himg'.
Qed.

Lemma sample_pil_convert (i : pil_image sample_pil) (m : string) (i' : pil_image sample_pil) :
  pil_convert sample_pil i m = Ok i' -> pil_mode sample_pil i' = m.
Proof. simpl. intros H. injection H as <-. reflexivity. Qed.

(** C6 (witness): a CMYK JPEG upload, converted to RGB and saved as JPEG. *)
Lemma convert_to_base64_formats_witness :
  convert_to_base64 sample_pil (Some (Upload "image/jpeg" [Byte.x4a; Byte.x50; Byte.x47]))
    = (Ok (Some "data:image/jpeg;base64,Ag=="), [])
  /\ ([] : list string) = [] /\
  exists img img' bytes,
    pil_open sample_pil [Byte.x4a; Byte.x50; Byte.x47] = Ok img /\
    ((is_png sample_pil (Upload "image/jpeg" [Byte.x4a; Byte.x50; Byte.x47]) img = true
      /\ In (pil_mode sample_pil img') ["RGBA"; "LA"; "P"]
      /\ (img' = img \/ pil_convert sample_pil img "RGBA" = Ok img')
      /\ pil_save sample_pil img' (SavePNG true) = Ok bytes
      /\ "data:image/jpeg;base64,Ag==" = "data:image/png;base64," +++ b64encode sample_pil bytes)
     \/ (is_png sample_pil (Upload "image/jpeg" [Byte.x4a; Byte.x50; Byte.x47]) img = false
      /\ pil_mode sample_pil img' = "RGB"
      /\ (img' = img \/ pil_convert sample_pil img "RGB" = Ok img')
      /\ pil_save sample_pil img' (SaveJPEG 95) = Ok bytes
      /\ "data:image/jpeg;base64,Ag==" = "data:image/jpeg;base64," +++ b64encode sample_pil bytes)).
Proof.
  assert (H : convert_to_base64 sample_pil (Some (Upload "image/jpeg" [Byte.x4a; Byte.x50; Byte.x47]))
              = (Ok (Some "data:image/jpeg;base64,Ag=="), [])) by (vm_compute; reflexivity).
  split; [exact H |].
  exact (convert_to_base64_formats sample_pil sample_pil_convert _ _ _ H).
Defined.

(** ** The renderers succeed on well-typed configurations *)

Lemma str_field_get (d : dict) (k s0 : string) :
  str_field d k = true -> exists s, dict_get d k (PStr s0) = PStr s.
Proof.
  unfold str_field, dict_get. destruct (dict_lookup d k) as [[]|]; try discriminate; eauto.
Qed.

Lemma str_or_falsy_get (d : dict) (k : string) (dflt : pyval) :
  str_or_falsy d k = true -> str_or_falsy_val dflt -> str_or_falsy_val (dict_get d k dflt).
Proof.
  unfold str_or_falsy, str_or_falsy_val, dict_get. intros H Hd.
  destruct (dict_lookup d k) as [[]|]; simpl in H; eauto;
    left; apply negb_true_iff; exact H.
Qed.

(** Runs a computation whose failure points are all discharged. *)
Ltac ok_steps :=
  repeat (cbn [bind py_strip py_lower py_in py_replace py_add_int] in *;
          first [ eexists; reflexivity
                | match goal with
                  | |- context [bind (if ?b then _ else _) _] => destruct b
                  end ]).

(** Rewrites with a field known to be a [str], or false or a [str]. *)
Ltac use_str H := let s := fresh "s" in let E := fresh "E" in
  destruct H as [s E]; rewrite E.
Ltac use_sof H := let s := fresh "s" in let E := fresh "E" in
  destruct H as [E | [s E]]; rewrite E.

Lemma layer_text_ok (layer : dict) (tc : pyval) :
  str_or_falsy layer "content" = true -> exists t, layer_text layer tc = Ok t.
Proof.
  intros Hc. pose proof (str_or_falsy_get _ _ (PStr "") Hc (ltac:(left; reflexivity))) as Hv.
  unfold layer_text, generate_layer_text. use_sof Hv; ok_steps.
Qed.

Lemma layer_image_src_ok (layer : dict) :
  str_or_falsy layer "image_url" = true -> str_or_falsy layer "image_base64" = true ->
  exists src, layer_image_src layer = Ok src /\ str_or_falsy_val src.
Proof.
  intros Hu Hb.
  pose proof (str_or_falsy_get _ _ PNone Hu (ltac:(left; reflexivity))) as Hu'.
  pose proof (str_or_falsy_get _ _ PNone Hb (ltac:(left; reflexivity))) as Hb'.
  unfold layer_image_src.
  destruct Hu' as [Eu | [u Eu]]; rewrite Eu; cbn [truthy py_strip bind];
    repeat match goal with |- context [if ?b then _ else _] => destruct b eqn:? end;
    (eexists; split; [reflexivity | first [exact Hb' | left; reflexivity | right; eauto]]).
Qed.

Lemma generate_layer_html_ok (layer : dict) (tc : pyval) :
  layer_well_typed layer = true -> exists parts, generate_layer_html layer tc = Ok parts.
Proof.
  unfold layer_well_typed. intros H. repeat rewrite andb_true_iff in H.
  destruct H as [[[[Ha Hu] Hb] Hl] Hc].
  destruct (layer_image_src_ok _ Hu Hb) as [src [Hsrc Hsv]].
  destruct (layer_text_ok layer tc Hc) as [t Ht].
  pose proof (str_field_get _ _ "left" Ha) as Ha'.
  pose proof (str_field_get _ _ "" Hl) as Hl'.
  unfold generate_layer_html. use_str Ha'. use_str Hl'. rewrite Hsrc, Ht.
  cbn [bind py_lower py_strip]. use_sof Hsv; ok_steps.
Qed.

Lemma int_field_get (d : dict) (k : string) (z0 : Z) :
  int_field d k = true -> exists z, py_add_int (dict_get d k (PInt z0)) 5 = Ok z.
Proof.
  unfold int_field, dict_get. destruct (dict_lookup d k) as [[]|]; try discriminate;
    simpl; eauto.
Qed.

Lemma generate_header_html_ok (subject : pyval) (hc : dict) :
  header_well_typed hc = true -> exists parts, generate_header_html subject hc = Ok parts.
Proof.
  unfold header_well_typed. intros H. repeat rewrite andb_true_iff in H.
  destruct H as [[Hp Ht] Hx].
  pose proof (str_field_get _ _ "" Hp) as Hp'.
  pose proof (str_field_get _ _ "" Ht) as Ht'.
  pose proof (str_field_get _ _ "" Hx) as Hx'.
  unfold generate_header_html, generate_header_main.
  use_str Hp'. use_str Ht'. use_str Hx'. ok_steps.
Qed.

Lemma generate_subscription_html_ok (sc : dict) :
  subscription_well_typed sc = true -> exists parts, generate_subscription_html sc = Ok parts.
Proof.
  unfold subscription_well_typed. intros H. repeat rewrite andb_true_iff in H.
  destruct H as [Hc Hn].
  pose proof (str_field_get _ _ "Your Company Name" Hn) as Hn'.
  unfold generate_subscription_html. use_str Hn'.
  match goal with |- context [dict_get sc "copyright_text" ?d] =>
    pose proof (str_or_falsy_get _ _ d Hc (ltac:(right; eexists; reflexivity))) as Hc' end.
  use_sof Hc'; ok_steps.
Qed.

Lemma generate_footer_html_ok (fc : dict) :
  footer_well_typed fc = true -> exists parts, generate_footer_html fc = Ok parts.
Proof.
  unfold footer_well_typed. intros H. repeat rewrite andb_true_iff in H.
  destruct H as [[[[Ha Had] Hd] Hl] Hw].
  pose proof (str_field_get _ _ "left" Ha) as Ha'.
  pose proof (str_or_falsy_get _ _ (PStr "") Had (ltac:(left; reflexivity))) as Had'.
  pose proof (str_or_falsy_get _ _ (PStr "") Hd (ltac:(left; reflexivity))) as Hd'.
  pose proof (str_or_falsy_get _ _ (PStr "") Hl (ltac:(left; reflexivity))) as Hl'.
  unfold generate_footer_html, append_footer_image.
  use_str Ha'. use_sof Had'; use_sof Hd'; use_sof Hl';
  (destruct (py_eq (dict_get fc "social_media_type" (PStr "URLs Only")) (PStr "Images")) eqn:Em;
   [ apply orb_true_iff in Hw as [Hw | Hw]; [try rewrite Em in Hw; discriminate |];
     destruct (int_field_get _ _ 30 Hw) as [z Hz]; rewrite Hz | ]);
  ok_steps.
Qed.

Lemma layers_html_ok (ls : list dict) (tc : pyval) :
  forallb layer_well_typed ls = true ->
  exists body, mapM (fun layer => generate_layer_html layer tc) ls = Ok body.
Proof.
  induction ls as [|l t IH]; simpl; intros H; [eexists; reflexivity|].
  apply andb_true_iff in H as [Hl Ht].
  destruct (generate_layer_html_ok l tc Hl) as [p Hp]. destruct (IH Ht) as [b Hb].
  rewrite Hp, Hb. eexists; reflexivity.
Qed.

Lemma generate_html_ok (nl : newsletter) :
  well_typed nl = true -> exists s, generate_html nl = Ok s.
Proof.
  unfold well_typed. intros H. repeat rewrite andb_true_iff in H.
  destruct H as [[[[Hf Hh] Hl] Hft] Hs].
  destruct (generate_header_html_ok (subject nl) _ Hh) as [hd Hhd].
  destruct (layers_html_ok _ (text_color nl) Hl) as [body Hbody].
  destruct (generate_footer_html_ok _ Hft) as [ft Hftr].
  unfold generate_html, generate_html_parts.
  destruct (font_family nl) as [| | |f]; try discriminate. cbn [py_in bind].
  rewrite Hhd, Hbody, Hftr. cbn [bind].
  destruct (subscription_config nl) as [sc|].
  - destruct (dict_truthy (Some sc)).
    + destruct (generate_subscription_html_ok sc Hs) as [sp Hsp]. rewrite Hsp.
      eexists; reflexivity.
    + eexists; reflexivity.
  - eexists; reflexivity.
Qed.

Lemma layer_image_src_absent (layer : dict) :
  dict_get layer "image_base64" PNone = PNone ->
  (truthy (dict_get layer "image_url" PNone) = false
   \/ exists u, dict_get layer "image_url" PNone = PStr u /\ strip u = "") ->
  layer_image_src layer = Ok PNone.
Proof.
  intros Hb Hu. unfold layer_image_src. rewrite Hb.
  destruct Hu as [Hu | [u [Hu Hs]]]; rewrite Hu; [reflexivity|].
  cbn [py_strip bind]. rewrite Hs. destruct (truthy (PStr u)); reflexivity.
Qed.

(** ** C7: a failed image conversion is shown and the image dropped *)

(** C7 (counterexample): bytes that are no image make [convert_to_base64]
    return [None] normally, with the message shown by [st.error]; no
    [ImageProcessingError] (nor any other exception) reaches the caller. *)
Lemma image_error_returns_none :
  convert_to_base64 sample_pil (Some (Upload "image/png" [Byte.x00]))
  = (Ok None, ["Error processing image: cannot identify image file"]).
Proof. vm_compute. reflexivity. Qed.

(** C7: when decoding or encoding an image raises, [convert_to_base64]
    catches the exception, shows its message with [st.error] and returns
    [None]; a layer left with no embedded image and no usable URL renders
    its text-only layout (one full-width text cell); and a layer (whatever
    its image) still renders, so the document is still produced. *)
Theorem image_failure_recovered :
  (forall (P : pil) (f : upload) (e : pyexn),
     encode_image P f = Raise e ->
     convert_to_base64 P (Some f) = (Ok None, ["Error processing image: " +++ exn_msg e])) /\
  (forall (layer : dict) (tc : pyval),
     dict_get layer "image_base64" PNone = PNone ->
     (truthy (dict_get layer "image_url" PNone) = false
      \/ exists u, dict_get layer "image_url" PNone = PStr u /\ strip u = "") ->
     generate_layer_html layer tc =
       (image_alignment <- py_lower (dict_get layer "image_alignment" (PStr "left")) ;;
        link_url <- py_strip (dict_get layer "link_url" (PStr "")) ;;
        text <- layer_text layer tc ;;
        Ok (layer_open (dict_get layer "padding" (PInt 30))
            ++ [text_cell_full]
            ++ (if str_truthy link_url then [link_open link_url] else [])
            ++ text
            ++ (if str_truthy link_url then ["</a>"] else [])
            ++ ["</td>"] ++ layer_close))) /\
  (forall (layer : dict) (tc : pyval),
     layer_well_typed layer = true -> exists parts, generate_layer_html layer tc = Ok parts) /\
  (forall nl : newsletter, well_typed nl = true -> exists s, generate_html nl = Ok s).
Proof.
  split; [| split; [| split]].
  - intros P f e He. unfold convert_to_base64. rewrite He. reflexivity.
  - intros layer tc Hb Hu. unfold generate_layer_html.
    rewrite (layer_image_src_absent layer Hb Hu).
    destruct (py_lower _) as [al|]; [|reflexivity]. cbn [bind].
    destruct (py_strip _) as [link|]; [|reflexivity]. cbn [bind truthy andb].
    destruct (layer_text layer tc) as [t|]; [|reflexivity]. cbn [bind].
    rewrite <- !app_assoc. reflexivity.
  - exact generate_layer_html_ok.
  - exact generate_html_ok.
Qed.

(** C7 (witness): a failed upload, and the sample layer without image. *)
Lemma image_failure_recovered_witness :
  encode_image sample_pil (Upload "image/png" [Byte.x00])
    = Raise (PyExn "UnidentifiedImageError" "cannot identify image file")
  /\ convert_to_base64 sample_pil (Some (Upload "image/png" [Byte.x00]))
     = (Ok None, ["Error processing image: " +++ "cannot identify image file"])
  /\ generate_layer_html sample_blank_link_layer (PStr "#333333") =
       (image_alignment <- py_lower (dict_get sample_blank_link_layer "image_alignment" (PStr "left")) ;;
        link_url <- py_strip (dict_get sample_blank_link_layer "link_url" (PStr "")) ;;
        text <- layer_text sample_blank_link_layer (PStr "#333333") ;;
        Ok (layer_open (dict_get sample_blank_link_layer "padding" (PInt 30))
            ++ [text_cell_full]
            ++ (if str_truthy link_url then [link_open link_url] else [])
            ++ text
            ++ (if str_truthy link_url then ["</a>"] else [])
            ++ ["</td>"] ++ layer_close))
  /\ exists s, generate_html sample_newsletter = Ok s.
Proof.
  assert (He : encode_image sample_pil (Upload "image/png" [Byte.x00])
               = Raise (PyExn "UnidentifiedImageError" "cannot identify image file"))
    by reflexivity.
  split; [exact He |]. split.
  - exact (proj1 image_failure_recovered sample_pil _ _ He).
  - split.
    + exact (proj1 (proj2 image_failure_recovered) sample_blank_link_layer (PStr "#333333")
               eq_refl (or_introl eq_refl)).
    + exact (proj2 (proj2 (proj2 image_failure_recovered)) sample_newsletter
               (ltac:(vm_compute; reflexivity))).
Defined.

(** ** C8: rendering cannot fail *)

(** C8: on every configuration whose text fields are strings (colors,
    sizes, widths, flags and every other value unconstrained, so also out of
    range), the document assembler and the layer, header, footer and
    subscription renderers all return a result, never an exception. *)
Theorem generation_total :
  (forall nl : newsletter, well_typed nl = true -> exists s, generate_html nl = Ok s) /\
  (forall (layer : dict) (tc : pyval),
     layer_well_typed layer = true -> exists parts, generate_layer_html layer tc = Ok parts) /\
  (forall (subject : pyval) (hc : dict),
     header_well_typed hc = true -> exists parts, generate_header_html subject hc = Ok parts) /\
  (forall fc : dict,
     footer_well_typed fc = true -> exists parts, generate_footer_html fc = Ok parts) /\
  (forall sc : dict,
     subscription_well_typed sc = true -> exists parts, generate_subscription_html sc = Ok parts).
Proof.
  split; [exact generate_html_ok |].
  split; [exact generate_layer_html_ok |].
  split; [exact generate_header_html_ok |].
  split; [exact generate_footer_html_ok | exact generate_subscription_html_ok].
Qed.

(** C8 (witness): the sample newsletter, with a width of 5000 px. *)
Lemma generation_total_witness :
  well_typed sample_newsletter = true /\ exists s, generate_html sample_newsletter = Ok s.
Proof.
  assert (H : well_typed sample_newsletter = true) by (vm_compute; reflexivity).
  split; [exact H | exact (proj1 generation_total sample_newsletter H)].
Defined.

(** ** C9: headings and body text of a layer *)

Lemma str_append_assoc (a b c : string) : (a +++ b) +++ c = a +++ b +++ c.
Proof. induction a as [|x a IH]; simpl; [reflexivity | rewrite IH; reflexivity]. Qed.

Lemma replace_fuel_absent (fuel : nat) (old new s : string) :
  str_contains old s = false -> replace_fuel fuel old new s = s.
Proof.
  revert s. induction fuel as [|f IH]; intros s H; [reflexivity|].
  destruct s as [|c t]; [reflexivity|]. simpl in H |- *.
  apply orb_false_iff in H as [Hp Ht]. rewrite Hp, (IH t Ht). reflexivity.
Qed.

(** C9 (counterexample): plain content with a [<] is inserted as it is,
    not escaped to [&lt;]. *)
Lemma plain_content_not_escaped :
  generate_layer_text (PStr "") (PStr "") (PStr "") (PStr "1 < 2")
    (PStr "#333333") (PStr "#00925b") (PStr "#333333") (PStr "#000000")
    (PInt 21) (PInt 15) (PInt 13) (PInt 13) (PBool true) (PBool true) (PBool false)
  = Ok [h "<p style=`color: #000000; margin: 0; font-size: 13px; line-height: 1.5;`>1 < 2</p>"].
Proof. vm_compute. reflexivity. Qed.

(** C9: each heading is rendered only when its text is non-empty, as one
    [<h2>], [<h3>] or [<h4>] element holding the text; non-empty content
    holding both a [<] and a [>] is emitted verbatim inside a styled
    [<div>]; other non-empty content is emitted in one [<p>] element with
    each newline replaced by [<br>] and nothing escaped (content without a
    newline appears unchanged); empty content renders nothing. *)
Theorem layer_text_rendering (title subtitle subtitle2 content : string)
    (title_color subtitle_color subtitle2_color content_color : pyval)
    (title_font_size subtitle_font_size subtitle2_font_size content_font_size : pyval)
    (title_bold subtitle_bold subtitle2_bold : pyval) :
  exists title_part subtitle_part subtitle2_part content_part,
    generate_layer_text (PStr title) (PStr subtitle) (PStr subtitle2) (PStr content)
      title_color subtitle_color subtitle2_color content_color
      title_font_size subtitle_font_size subtitle2_font_size content_font_size
      title_bold subtitle_bold subtitle2_bold
    = Ok (title_part ++ subtitle_part ++ subtitle2_part ++ content_part)
    /\ (title = "" -> title_part = [])
    /\ (title <> "" -> exists e, title_part = [e] /\ tag_element "h2" title e)
    /\ (subtitle = "" -> subtitle_part = [])
    /\ (subtitle <> "" -> exists e, subtitle_part = [e] /\ tag_element "h3" subtitle e)
    /\ (subtitle2 = "" -> subtitle2_part = [])
    /\ (subtitle2 <> "" -> exists e, subtitle2_part = [e] /\ tag_element "h4" subtitle2 e)
    /\ (content = "" -> content_part = [])
    /\ (content <> "" -> str_contains "<" content && str_contains ">" content = true ->
        exists o, content_part = [o; content; "</div>"] /\ String.prefix (h "<div style=`") o = true)
    /\ (content <> "" -> str_contains "<" content && str_contains ">" content = false ->
        exists e, content_part = [e] /\ tag_element "p" (str_replace newline "<br>" content) e)
    /\ (str_contains newline content = false -> str_replace newline "<br>" content = content).
Proof.
  assert (Hv : str_contains newline content = false -> str_replace newline "<br>" content = content)
    by (unfold str_replace, newline; apply replace_fuel_absent).
  unfold generate_layer_text. cbn [truthy py_in py_replace bind].
  destruct (str_truthy content) eqn:Ec;
    [destruct (str_contains "<" content) eqn:Elt; cbn [bind];
     [destruct (str_contains ">" content) eqn:Egt|]; cbn [bind andb py_str] |];
    (eexists _, _, _, _; split; [reflexivity|]);
    repeat split; intros; try (apply Hv; assumption);
    repeat match goal with
    | H : ?x = "" |- _ => subst x; try reflexivity; try discriminate
    | H : ?x <> "" |- _ => destruct x as [|? ?]; [congruence|]; clear H
    end; cbn [str_truthy].
  all: try discriminate.
  all: eexists; split; [reflexivity|].
  all: first
    [ reflexivity
    | exists (h " style=`color: " +++ py_str title_color +++ "; margin: 0 0 10px 0; font-size: "
              +++ py_str title_font_size +++ "px; font-weight: "
              +++ (if truthy title_bold then "700" else "400") +++ h "; line-height: 1.2;`");
      rewrite ?str_append_assoc; reflexivity
    | exists (h " style=`color: " +++ py_str subtitle_color +++ "; margin: 0 0 10px 0; font-size: "
              +++ py_str subtitle_font_size +++ "px; font-weight: "
              +++ (if truthy subtitle_bold then "600" else "400") +++ h "; line-height: 1.4;`");
      rewrite ?str_append_assoc; reflexivity
    | exists (h " style=`color: " +++ py_str subtitle2_color +++ "; margin: 0 0 15px 0; font-size: "
              +++ py_str subtitle2_font_size +++ "px; font-weight: "
              +++ (if truthy subtitle2_bold then "500" else "400") +++ h "; line-height: 1.4;`");
      rewrite ?str_append_assoc; reflexivity
    | exists (h " style=`color: " +++ py_str content_color +++ "; margin: 0; font-size: "
              +++ py_str content_font_size +++ h "px; line-height: 1.5;`");
      rewrite ?str_append_assoc; reflexivity ].
Qed.

(** C9 (witness): the scenario of a layer titled [Welcome] with the
    content [Hi], newline, [there]. *)
Lemma layer_text_rendering_witness :
  str_replace newline "<br>" ("Hi" +++ newline +++ "there") = "Hi<br>there" /\
  exists title_part content_part,
    generate_layer_text (PStr "Welcome") (PStr "") (PStr "") (PStr ("Hi" +++ newline +++ "there"))
      (PStr "#333333") (PStr "#00925b") (PStr "#333333") (PStr "#000000")
      (PInt 21) (PInt 15) (PInt 13) (PInt 13) (PBool true) (PBool true) (PBool false)
    = Ok (title_part ++ [] ++ [] ++ content_part)
    /\ (exists e, title_part = [e] /\ tag_element "h2" "Welcome" e)
    /\ (exists e, content_part = [e]
                  /\ tag_element "p" (str_replace newline "<br>" ("Hi" +++ newline +++ "there")) e).
Proof.
  split; [reflexivity |].
  destruct (layer_text_rendering "Welcome" "" "" ("Hi" +++ newline +++ "there")
              (PStr "#333333") (PStr "#00925b") (PStr "#333333") (PStr "#000000")
              (PInt 21) (PInt 15) (PInt 13) (PInt 13) (PBool true) (PBool true) (PBool false))
    as (tp & sp & s2p & cp & Heq & _ & Ht & Hs & _ & Hs2 & _ & _ & _ & Hp & _).
  exists tp, cp. rewrite (Hs eq_refl), (Hs2 eq_refl) in Heq.
  split; [exact Heq |]. split.
  - apply Ht. discriminate.
  - apply Hp; [discriminate | reflexivity].
Defined.

(** ** C10: the web-font link *)

Lemma document_head_no_link (subj : pyval) :
  forallb (fun s => negb (String.prefix "<link" s)) (document_head subj) = true.
Proof. reflexivity. Qed.

(** C10: the head of the document (every part before [</head>]) is the
    fixed [document_head], followed by the Google Fonts stylesheet link for
    Oswald exactly when [Oswald] is a substring of [font_family]; no part
    of [document_head] is a [<link>], so no other font selection puts any
    stylesheet link in the head. *)
Theorem google_fonts_link_iff_oswald (nl : newsletter) (f : string) (parts : list string) :
  font_family nl = PStr f ->
  generate_html_parts nl = Ok parts ->
  exists rest,
    parts = document_head (subject nl)
            ++ (if str_contains "Oswald" f then [google_fonts_link] else [])
            ++ "</head>" :: rest
    /\ (In google_fonts_link (document_head (subject nl)
                              ++ (if str_contains "Oswald" f then [google_fonts_link] else []))
        <-> str_contains "Oswald" f = true)
    /\ forallb (fun s => negb (String.prefix "<link" s)) (document_head (subject nl)) = true.
Proof.
  intros Hf Hp. unfold generate_html_parts in Hp. rewrite Hf in Hp. cbn [py_in bind] in Hp.
  apply bind_ok in Hp as [hd [_ Hp]]. apply bind_ok in Hp as [body [_ Hp]].
  apply bind_ok in Hp as [ft [_ Hp]]. apply bind_ok in Hp as [sub [_ Hp]].
  injection Hp as <-.
  eexists. split; [| split; [| apply document_head_no_link]].
  - reflexivity.
  - destruct (str_contains "Oswald" f); split; intros H; try reflexivity.
    + apply in_or_app. right. left. reflexivity.
    + rewrite app_nil_r in H. unfold document_head in H. simpl in H.
      repeat destruct H as [H | H]; try discriminate H; contradiction.
    + discriminate.
Qed.

(** C10 (witness): the sample newsletter, set in Oswald. *)
Lemma google_fonts_link_iff_oswald_witness :
  exists parts,
    generate_html_parts sample_newsletter = Ok parts
    /\ exists rest,
      parts = document_head (subject sample_newsletter)
              ++ (if str_contains "Oswald" "Oswald, sans-serif" then [google_fonts_link] else [])
              ++ "</head>" :: rest
      /\ (In google_fonts_link (document_head (subject sample_newsletter)
            ++ (if str_contains "Oswald" "Oswald, sans-serif" then [google_fonts_link] else []))
          <-> str_contains "Oswald" "Oswald, sans-serif" = true)
      /\ forallb (fun s => negb (String.prefix "<link" s)) (document_head (subject sample_newsletter))
         = true.
Proof.
  set (r := generate_html_parts sample_newsletter).
  assert (Hr : r = Ok (match r with Ok p => p | Raise _ => [] end)) by (vm_compute; reflexivity).
  exists (match r with Ok p => p | Raise _ => [] end).
  split; [exact Hr |].
  exact (google_fonts_link_iff_oswald sample_newsletter "Oswald, sans-serif" _ eq_refl Hr).
Defined.

(** * The template store, template loading and [main]'s checks *)

(** ** The template store ([MongoManager]) *)

Lemma find_upsert_same (t : template) (docs : list template) (n : string) :
  tpl_name t = n -> find_template n (upsert_template t docs) = Some t.
Proof.
  intros <-. unfold find_template. induction docs as [|u rest IH]; simpl.
  - rewrite String.eqb_refl. reflexivity.
  - destruct (String.eqb (tpl_name u) (tpl_name t)) eqn:E; simpl.
    + rewrite String.eqb_refl. reflexivity.
    + rewrite E. exact IH.
Qed.

Lemma find_upsert_other (t : template) (docs : list template) (n : string) :
  n <> tpl_name t -> find_template n (upsert_template t docs) = find_template n docs.
Proof.
  intros Hn. unfold find_template. induction docs as [|u rest IH]; simpl.
  - apply String.eqb_neq in Hn. rewrite String.eqb_sym, Hn. reflexivity.
  - destruct (String.eqb (tpl_name u) (tpl_name t)) eqn:E; simpl.
    + apply String.eqb_eq in E. rewrite E.
      apply String.eqb_neq in Hn. rewrite String.eqb_sym, Hn. reflexivity.
    + destruct (String.eqb (tpl_name u) n); [reflexivity | exact IH].
Qed.

Lemma names_upsert (t : template) (docs : list template) :
  map tpl_name (upsert_template t docs) =
  if existsb (String.eqb (tpl_name t)) (map tpl_name docs) then map tpl_name docs
  else map tpl_name docs ++ [tpl_name t].
Proof.
  induction docs as [|u rest IH]; simpl; [reflexivity|].
  destruct (String.eqb (tpl_name u) (tpl_name t)) eqn:E.
  - apply String.eqb_eq in E. rewrite E, String.eqb_refl. reflexivity.
  - rewrite String.eqb_sym, E. simpl. rewrite IH.
    destruct (existsb (String.eqb (tpl_name t)) (map tpl_name rest)); reflexivity.
Qed.

Lemma delete_first_spec (name : string) (docs : list template) :
  names_unique docs = true ->
  let '(docs', n) := delete_first name docs in
  (n = if existsb (String.eqb name) (map tpl_name docs) then 1 else 0)%Z /\
  find_template name docs' = None /\
  (forall m, m <> name -> find_template m docs' = find_template m docs) /\
  names_unique docs' = true.
Proof.
  unfold find_template. induction docs as [|u rest IH]; simpl; intros Hu.
  - repeat split.
  - apply andb_prop in Hu as [Hnin Hu].
    destruct (String.eqb (tpl_name u) name) eqn:E.
    + apply String.eqb_eq in E. subst name. rewrite String.eqb_refl.
      repeat split.
      * apply negb_true_iff in Hnin.
        destruct (find (fun v => String.eqb (tpl_name v) (tpl_name u)) rest) eqn:F; [|reflexivity].
        apply find_some in F as [Fin Feq].
        exfalso. assert (existsb (fun v => String.eqb (tpl_name v) (tpl_name u)) rest = true)
          by (apply existsb_exists; exists t; auto). congruence.
      * intros m Hm. assert (Hm2 : String.eqb (tpl_name u) m = false) by (apply String.eqb_neq; congruence). rewrite Hm2. reflexivity.
      * exact Hu.
    + specialize (IH Hu). destruct (delete_first name rest) as [rest' n] eqn:D.
      destruct IH as [Hn [Hf [Ho Hu']]].
      rewrite String.eqb_sym, E. simpl. rewrite E.
      repeat split; [exact Hn | exact Hf | |].
      * intros m Hm. destruct (String.eqb (tpl_name u) m); [reflexivity|]. apply Ho. exact Hm.
      * rewrite Hu', andb_true_r. apply negb_true_iff. apply negb_true_iff in Hnin.
        destruct (existsb (fun v => String.eqb (tpl_name v) (tpl_name u)) rest') eqn:X; [|reflexivity].
        apply existsb_exists in X as [v [Hv Hveq]].
        apply String.eqb_eq in Hveq.
        assert (Hf2 : find (fun x => String.eqb (tpl_name x) (tpl_name u)) rest' <> None).
        { intros Hnone. apply (find_none _ _ Hnone) in Hv. rewrite Hveq, String.eqb_refl in Hv. discriminate. }
        rewrite Ho in Hf2.
        2:{ intros Heq. apply String.eqb_neq in E. congruence. }
        destruct (find (fun x => String.eqb (tpl_name x) (tpl_name u)) rest) eqn:F; [|congruence].
        apply find_some in F as [Fin Feq].
        assert (existsb (fun v => String.eqb (tpl_name v) (tpl_name u)) rest = true)
          by (apply existsb_exists; exists t; auto). congruence.
Qed.

Lemma names_unique_upsert (t : template) (docs : list template) :
  names_unique docs = true -> names_unique (upsert_template t docs) = true.
Proof.
  induction docs as [|u rest IH]; simpl; intros Hu; [reflexivity|].
  apply andb_prop in Hu as [Hnin Hu].
  destruct (String.eqb (tpl_name u) (tpl_name t)) eqn:E; simpl.
  - apply String.eqb_eq in E. rewrite <- E. rewrite Hnin, Hu. reflexivity.
  - rewrite IH by exact Hu. rewrite andb_true_r.
    apply negb_true_iff. apply negb_true_iff in Hnin.
    destruct (existsb (fun v => String.eqb (tpl_name v) (tpl_name u)) (upsert_template t rest)) eqn:X;
      [|reflexivity].
    apply existsb_exists in X as [v [Hv Hveq]].
    assert (Hin : In (tpl_name v) (map tpl_name (upsert_template t rest))) by (apply in_map; exact Hv).
    rewrite names_upsert in Hin.
    apply String.eqb_eq in Hveq. rewrite Hveq in Hin.
    assert (Hin' : In (tpl_name u) (map tpl_name rest)).
    { destruct (existsb (String.eqb (tpl_name t)) (map tpl_name rest)); [exact Hin|].
      apply in_app_or in Hin as [Hin|[Hin|[]]]; [exact Hin|].
      rewrite Hin, String.eqb_refl in E. discriminate. }
    apply in_map_iff in Hin' as [w [Hw Hwin]].
    assert (existsb (fun v => String.eqb (tpl_name v) (tpl_name u)) rest = true)
      by (apply existsb_exists; exists w; rewrite Hw, String.eqb_refl; auto). congruence.
Qed.

Ltac mongo_cases :=
  repeat (simpl; match goal with
  | |- context [ if collection_set ?w then _ else _ ] =>
      let E := fresh "E" in destruct (collection_set w) eqn:E
  | |- context [ if server_up ?s then _ else _ ] =>
      let E := fresh "E" in destruct (server_up s) eqn:E
  | |- context [ if negb (server_up ?s) then _ else _ ] =>
      let E := fresh "E" in destruct (server_up s) eqn:E
  | |- context [ if names_unique ?d then _ else _ ] =>
      let E := fresh "E" in destruct (names_unique d) eqn:E
  | |- context [ match ?we (Template ?a ?b ?c ?d ?f ?g) with _ => _ end ] =>
      let E := fresh "E" in destruct (we (Template a b c d f g)) eqn:E
  | |- context [ if String.eqb (exn_class ?e) ?c then _ else _ ] =>
      let E := fresh "E" in destruct (String.eqb (exn_class e) c) eqn:E
  end).

(** X1: once [save_template] reports success, [load_template_data] on the
    resulting store returns exactly the template that was saved, with no
    error message. *)
Theorem save_then_load (timeout_msg index_error_msg : string) (write_error : template -> option pyexn)
    (name : string) (config header_config : dict) (layers : list dict) (footer_config : dict)
    (subscription_config : option dict) (w w' : mongo_world) (msgs : list string) :
  save_template timeout_msg index_error_msg write_error name config header_config layers
    footer_config subscription_config w = (true, w', msgs) ->
  load_template_data timeout_msg index_error_msg name w' =
    (Some (Template name config header_config layers footer_config subscription_config), w', []).
Proof.
  unfold save_template, ensure_connected, connect. simpl. mongo_cases; simpl;
    intros H; inversion H; subst; unfold load_template_data, ensure_connected, with_docs; simpl;
    rewrite ?E, ?E0, ?E1, ?E2; simpl;
    rewrite (find_upsert_same (Template name config header_config layers footer_config subscription_config) _ name eq_refl);
    reflexivity.
Qed.

(** X1 (witness): saving the sample contents under the existing name
    [Weekly] replaces the stored template, and loading it gives them back. *)
Lemma save_then_load_witness :
  fst (fst (save_template "timed out" "E11000 duplicate key error" sample_accept "Weekly" (tpl_config sample_template) (tpl_header_config sample_template) (tpl_layers sample_template) (tpl_footer_config sample_template) None sample_world)) = true /\
  load_template_data "timed out" "E11000 duplicate key error" "Weekly" (snd (fst (save_template "timed out" "E11000 duplicate key error" sample_accept "Weekly" (tpl_config sample_template) (tpl_header_config sample_template) (tpl_layers sample_template) (tpl_footer_config sample_template) None sample_world))) =
    (Some (Template "Weekly" (tpl_config sample_template) (tpl_header_config sample_template)
             (tpl_layers sample_template) (tpl_footer_config sample_template) None),
     snd (fst (save_template "timed out" "E11000 duplicate key error" sample_accept "Weekly" (tpl_config sample_template) (tpl_header_config sample_template) (tpl_layers sample_template) (tpl_footer_config sample_template) None sample_world)), []).
Proof.
  set (r := save_template "timed out" "E11000 duplicate key error" sample_accept "Weekly" (tpl_config sample_template) (tpl_header_config sample_template) (tpl_layers sample_template) (tpl_footer_config sample_template) None sample_world).
  assert (H : r = (true, snd (fst r), snd r)) by (vm_compute; reflexivity).
  split; [rewrite H; reflexivity |].
  exact (save_then_load "timed out" "E11000 duplicate key error" sample_accept "Weekly" (tpl_config sample_template) (tpl_header_config sample_template) (tpl_layers sample_template) (tpl_footer_config sample_template) None sample_world (snd (fst r)) (snd r) H).
Defined.

Lemma delete_first_absent (name : string) (docs docs' : list template) :
  delete_first name docs = (docs', 0%Z) -> docs' = docs.
Proof.
  revert docs'. induction docs as [|u rest IH]; simpl; intros docs' H.
  - inversion H. reflexivity.
  - destruct (String.eqb (tpl_name u) name); [inversion H|].
    destruct (delete_first name rest) as [r n] eqn:D. inversion H; subst.
    rewrite (IH r eq_refl). reflexivity.
Qed.

Lemma delete_first_count (name : string) (docs : list template) :
  (snd (delete_first name docs) = 0 \/ snd (delete_first name docs) = 1)%Z.
Proof.
  induction docs as [|u rest IH]; simpl; [left; reflexivity|].
  destruct (String.eqb (tpl_name u) name); [right; reflexivity|].
  destruct (delete_first name rest) as [r n]. exact IH.
Qed.

(** X2: [save_template] returns [True] exactly when the server is reachable,
    the connection is (or becomes) set up, and the write is accepted. The
    connection becomes set up when the unique index can be built, that is
    when the stored names are distinct. *)
Theorem save_template_succeeds_iff (timeout_msg index_error_msg : string)
    (write_error : template -> option pyexn)
    (name : string) (config header_config : dict) (layers : list dict) (footer_config : dict)
    (subscription_config : option dict) (w : mongo_world) :
  fst (fst (save_template timeout_msg index_error_msg write_error name config header_config layers
              footer_config subscription_config w)) = true <->
  server_up (server w) = true /\
  (collection_set w = true \/ names_unique (server_docs (server w)) = true) /\
  write_error (Template name config header_config layers footer_config subscription_config) = None.
Proof.
  unfold save_template, ensure_connected, connect. simpl. mongo_cases; simpl;
    split; intros H; try discriminate; try reflexivity;
    intuition congruence.
Qed.

(** X3: a successful save shows no message. The stored names stay the same
    if the name was already present, otherwise the new name is appended at
    the end. Every other name keeps its template. *)
Theorem save_template_store (timeout_msg index_error_msg : string)
    (write_error : template -> option pyexn)
    (name : string) (config header_config : dict) (layers : list dict) (footer_config : dict)
    (subscription_config : option dict) (w w' : mongo_world) (msgs : list string) :
  save_template timeout_msg index_error_msg write_error name config header_config layers
    footer_config subscription_config w = (true, w', msgs) ->
  msgs = [] /\
  map tpl_name (server_docs (server w')) =
    (if existsb (String.eqb name) (map tpl_name (server_docs (server w)))
     then map tpl_name (server_docs (server w))
     else map tpl_name (server_docs (server w)) ++ [name]) /\
  (forall n, n <> name ->
     find_template n (server_docs (server w')) = find_template n (server_docs (server w))).
Proof.
  unfold save_template, ensure_connected, connect. simpl. mongo_cases; simpl;
    intros H; inversion H; subst; simpl;
    (split; [reflexivity | split;
      [ exact (names_upsert (Template name config header_config layers footer_config subscription_config) _)
      | intros n Hn; apply find_upsert_other; exact Hn ]]).
Qed.

(** X3 (witness): saving a new template [Monthly] next to [Weekly]. *)
Lemma save_template_store_witness :
  exists w' msgs,
    save_template "timed out" "E11000 duplicate key error" sample_accept "Monthly" (tpl_config sample_template) (tpl_header_config sample_template) (tpl_layers sample_template) (tpl_footer_config sample_template) None sample_world = (true, w', msgs) /\
    msgs = [] /\ map tpl_name (server_docs (server w')) = ["Weekly"; "Monthly"] /\
    find_template "Weekly" (server_docs (server w')) = Some sample_template.
Proof.
  set (r := save_template "timed out" "E11000 duplicate key error" sample_accept "Monthly" (tpl_config sample_template) (tpl_header_config sample_template) (tpl_layers sample_template) (tpl_footer_config sample_template) None sample_world).
  assert (H : r = (true, snd (fst r), snd r)) by (vm_compute; reflexivity).
  exists (snd (fst r)), (snd r). split; [exact H |].
  destruct (save_template_store "timed out" "E11000 duplicate key error" sample_accept "Monthly" (tpl_config sample_template) (tpl_header_config sample_template) (tpl_layers sample_template) (tpl_footer_config sample_template) None sample_world (snd (fst r)) (snd r) H)
    as [Hm [Hn Ho]].
  split; [exact Hm |]. split.
  - rewrite Hn. reflexivity.
  - rewrite (Ho "Weekly" ltac:(discriminate)). reflexivity.
Defined.

(** X4: a save or a delete that returns [False] leaves the stored templates
    and the server state unchanged. *)
Theorem failed_writes_keep_store (timeout_msg index_error_msg : string)
    (write_error : template -> option pyexn)
    (name : string) (config header_config : dict) (layers : list dict) (footer_config : dict)
    (subscription_config : option dict) (w w' : mongo_world) (msgs : list string) :
  (save_template timeout_msg index_error_msg write_error name config header_config layers
     footer_config subscription_config w = (false, w', msgs) ->
   server w' = server w) /\
  (delete_template timeout_msg index_error_msg name w = (false, w', msgs) ->
   server w' = server w).
Proof.
  split.
  - unfold save_template, ensure_connected, connect. simpl. mongo_cases; simpl;
      intros H; inversion H; subst; reflexivity.
  - unfold delete_template, ensure_connected, connect. simpl. mongo_cases; simpl;
      intros H; inversion H; subst; try reflexivity;
    destruct (delete_first name (server_docs (server w))) as [docs' n] eqn:D; simpl in *;
    destruct (delete_first_count name (server_docs (server w))) as [C|C]; rewrite D in C; simpl in C; subst n;
    inversion H; subst; unfold with_docs; simpl;
    rewrite (delete_first_absent _ _ _ D); destruct w as [c [u d]]; simpl in *; subst; reflexivity.
Qed.

(** X4 (witness): a save whose write is refused with a duplicate-key
    error. *)
Lemma failed_writes_keep_store_witness :
  save_template "timed out" "E11000 duplicate key error" (fun _ => Some (PyExn "DuplicateKeyError" "E11000")) "Weekly" (tpl_config sample_template) (tpl_header_config sample_template) (tpl_layers sample_template) (tpl_footer_config sample_template) None sample_world =
    (false, snd (fst (save_template "timed out" "E11000 duplicate key error" (fun _ => Some (PyExn "DuplicateKeyError" "E11000")) "Weekly" (tpl_config sample_template) (tpl_header_config sample_template) (tpl_layers sample_template) (tpl_footer_config sample_template) None sample_world)),
     ["Template name 'Weekly' already exists. Please use a different name."]) /\
  server (snd (fst (save_template "timed out" "E11000 duplicate key error" (fun _ => Some (PyExn "DuplicateKeyError" "E11000")) "Weekly" (tpl_config sample_template) (tpl_header_config sample_template) (tpl_layers sample_template) (tpl_footer_config sample_template) None sample_world))) = server sample_world.
Proof.
  set (r := save_template "timed out" "E11000 duplicate key error" (fun _ => Some (PyExn "DuplicateKeyError" "E11000")) "Weekly" (tpl_config sample_template) (tpl_header_config sample_template) (tpl_layers sample_template) (tpl_footer_config sample_template) None sample_world).
  assert (H : r = (false, snd (fst r), snd r)) by (vm_compute; reflexivity).
  split; [vm_compute; reflexivity |].
  exact (proj1 (failed_writes_keep_store "timed out" "E11000 duplicate key error" (fun _ => Some (PyExn "DuplicateKeyError" "E11000")) "Weekly" (tpl_config sample_template) (tpl_header_config sample_template) (tpl_layers sample_template) (tpl_footer_config sample_template) None sample_world (snd (fst r)) (snd r)) H).
Defined.

(** X5: if the stored names are distinct, they stay distinct after
    [save_template] and after [delete_template], whatever their outcome. *)
Theorem writes_keep_names_unique (timeout_msg index_error_msg : string)
    (write_error : template -> option pyexn)
    (name : string) (config header_config : dict) (layers : list dict) (footer_config : dict)
    (subscription_config : option dict) (w : mongo_world) :
  names_unique (server_docs (server w)) = true ->
  names_unique (server_docs (server (snd (fst (save_template timeout_msg index_error_msg write_error
     name config header_config layers footer_config subscription_config w))))) = true /\
  names_unique (server_docs (server (snd (fst (delete_template timeout_msg index_error_msg name w))))) = true.
Proof.
  intros Hu. split.
  - unfold save_template, ensure_connected, connect. mongo_cases; simpl;
      try assumption; try discriminate; apply names_unique_upsert; assumption.
  - pose proof (delete_first_spec name (server_docs (server w)) Hu) as D.
    unfold delete_template, ensure_connected, connect. mongo_cases; simpl; try assumption; try discriminate;
      destruct (delete_first name (server_docs (server w))) as [docs' n];
      simpl; apply D.
Qed.

(** X5 (witness): the sample store, saving [Monthly] and deleting
    [Weekly]. *)
Lemma writes_keep_names_unique_witness :
  names_unique (server_docs (server sample_world)) = true /\
  names_unique (server_docs (server (snd (fst (save_template "timed out" "E11000 duplicate key error" sample_accept "Monthly" (tpl_config sample_template) (tpl_header_config sample_template) (tpl_layers sample_template) (tpl_footer_config sample_template) None sample_world))))) = true /\
  names_unique (server_docs (server (snd (fst (delete_template "timed out" "E11000 duplicate key error" "Weekly" sample_world))))) = true.
Proof.
  split; [reflexivity |].
  exact (writes_keep_names_unique "timed out" "E11000 duplicate key error" sample_accept "Monthly" (tpl_config sample_template) (tpl_header_config sample_template) (tpl_layers sample_template) (tpl_footer_config sample_template) None sample_world eq_refl).
Defined.

Lemma existsb_name_in (name : string) (l : list string) :
  existsb (String.eqb name) l = true <-> In name l.
Proof.
  rewrite existsb_exists. split.
  - intros [x [Hx Hxe]]. apply String.eqb_eq in Hxe. subst x. exact Hx.
  - intros Hin. exists name. split; [exact Hin | apply String.eqb_refl].
Qed.

(** X6: when the stored names are distinct, [delete_template] returns [True]
    exactly when the server is reachable and the name is stored. A reachable
    server no longer holds the name afterwards, and every other name keeps
    its template. *)
Theorem delete_template_spec (timeout_msg index_error_msg : string) (name : string)
    (w w' : mongo_world) (deleted : bool) (msgs : list string) :
  names_unique (server_docs (server w)) = true ->
  delete_template timeout_msg index_error_msg name w = (deleted, w', msgs) ->
  (deleted = true <->
   server_up (server w) = true /\ In name (map tpl_name (server_docs (server w)))) /\
  (server_up (server w) = true -> find_template name (server_docs (server w')) = None) /\
  (forall m, m <> name ->
     find_template m (server_docs (server w')) = find_template m (server_docs (server w))).
Proof.
  intros Hu H.
  pose proof (delete_first_spec name (server_docs (server w)) Hu) as D.
  destruct (delete_first name (server_docs (server w))) as [docs' n] eqn:DF.
  destruct D as [Hn [Hf [Ho _]]].
  revert H. unfold delete_template, ensure_connected, connect.
  mongo_cases; intros H; simpl in H; try rewrite DF in H;
    inversion H; subst; clear H; unfold with_docs; simpl; try discriminate.
  all: try (split; [split; [discriminate | intros [? _]; discriminate]
                   | split; [discriminate | reflexivity]]).
  all: split; [| split; [intros _; exact Hf | exact Ho]].
  all: rewrite <- existsb_name_in;
       destruct (existsb (String.eqb name) (map tpl_name (server_docs (server w)))); simpl;
       split; intros; try reflexivity; try discriminate; intuition.
Qed.

(** X6 (witness): deleting [Weekly] from the sample store. *)
Lemma delete_template_spec_witness :
  exists w' msgs,
    delete_template "timed out" "E11000 duplicate key error" "Weekly" sample_world = (true, w', msgs) /\
    find_template "Weekly" (server_docs (server w')) = None.
Proof.
  set (r := delete_template "timed out" "E11000 duplicate key error" "Weekly" sample_world).
  assert (H : r = (true, snd (fst r), snd r)) by (vm_compute; reflexivity).
  exists (snd (fst r)), (snd r). split; [exact H |].
  destruct (delete_template_spec "timed out" "E11000 duplicate key error" "Weekly" sample_world (snd (fst r)) true (snd r)
              eq_refl H) as [_ [Hgone _]].
  exact (Hgone eq_refl).
Defined.

(** X7: when the server is unreachable, the four store calls return their
    fallback ([False], an empty list, [None], [False]) and leave the world
    unchanged. An error message is shown only if the collection was set up
    before; a first connection that fails shows nothing. *)
Theorem server_down_calls_fail (timeout_msg index_error_msg : string)
    (write_error : template -> option pyexn)
    (name : string) (config header_config : dict) (layers : list dict) (footer_config : dict)
    (subscription_config : option dict) (w : mongo_world) :
  server_up (server w) = false ->
  let shown (prefix : string) := if collection_set w then [prefix +++ timeout_msg] else [] in
  save_template timeout_msg index_error_msg write_error name config header_config layers
    footer_config subscription_config w = (false, w, shown "Error saving template: ") /\
  load_templates timeout_msg index_error_msg w = ([], w, shown "Error loading templates: ") /\
  load_template_data timeout_msg index_error_msg name w =
    (None, w, shown "Error loading template: ") /\
  delete_template timeout_msg index_error_msg name w =
    (false, w, shown "Error deleting template: ").
Proof.
  intros Hd shown. unfold shown, save_template, load_templates, load_template_data,
    delete_template, ensure_connected, connect.
  rewrite Hd. destruct (collection_set w); simpl; rewrite ?Hd; simpl; repeat split.
Qed.

(** X7 (witness): an unreachable server with an established
    collection. *)
Lemma server_down_calls_fail_witness :
  save_template "timed out" "E11000 duplicate key error" sample_accept "Weekly" (tpl_config sample_template) (tpl_header_config sample_template) (tpl_layers sample_template) (tpl_footer_config sample_template) None sample_down_world =
    (false, sample_down_world, ["Error saving template: timed out"]) /\
  load_templates "timed out" "E11000 duplicate key error" sample_down_world =
    ([], sample_down_world, ["Error loading templates: timed out"]) /\
  load_template_data "timed out" "E11000 duplicate key error" "Weekly" sample_down_world =
    (None, sample_down_world, ["Error loading template: timed out"]) /\
  delete_template "timed out" "E11000 duplicate key error" "Weekly" sample_down_world =
    (false, sample_down_world, ["Error deleting template: timed out"]).
Proof.
  exact (server_down_calls_fail "timed out" "E11000 duplicate key error" sample_accept "Weekly" (tpl_config sample_template) (tpl_header_config sample_template) (tpl_layers sample_template) (tpl_footer_config sample_template) None sample_down_world eq_refl).
Defined.

(** X8: if building the unique index fails because two stored templates
    share a name, the first save fails with the connection error but
    leaves the collection set up. The same save then succeeds, without
    the unique index ever being built. *)
Theorem index_failure_leaves_collection_set (timeout_msg index_error_msg : string)
    (write_error : template -> option pyexn)
    (name : string) (config header_config : dict) (layers : list dict) (footer_config : dict)
    (subscription_config : option dict) (w : mongo_world) :
  collection_set w = false ->
  server_up (server w) = true ->
  names_unique (server_docs (server w)) = false ->
  write_error (Template name config header_config layers footer_config subscription_config) = None ->
  let '(ok1, w1, msgs1) := save_template timeout_msg index_error_msg write_error name config
                             header_config layers footer_config subscription_config w in
  ok1 = false /\ msgs1 = ["Error connecting to MongoDB: " +++ index_error_msg] /\
  collection_set w1 = true /\
  fst (fst (save_template timeout_msg index_error_msg write_error name config
              header_config layers footer_config subscription_config w1)) = true.
Proof.
  intros Hc Hup Hdup Hw. unfold save_template, ensure_connected, connect.
  rewrite Hc, Hup, Hdup. simpl. rewrite Hup, Hw. repeat split.
Qed.

(** X8 (witness): a store holding the sample template twice. *)
Lemma index_failure_leaves_collection_set_witness :
  let '(ok1, w1, msgs1) := save_template "timed out" "E11000 duplicate key error" sample_accept "Weekly" (tpl_config sample_template) (tpl_header_config sample_template) (tpl_layers sample_template) (tpl_footer_config sample_template) None sample_dup_world in
  ok1 = false /\ msgs1 = ["Error connecting to MongoDB: " +++ "E11000 duplicate key error"] /\
  collection_set w1 = true /\
  fst (fst (save_template "timed out" "E11000 duplicate key error" sample_accept "Weekly" (tpl_config sample_template) (tpl_header_config sample_template) (tpl_layers sample_template) (tpl_footer_config sample_template) None w1)) = true.
Proof.
  exact (index_failure_leaves_collection_set "timed out" "E11000 duplicate key error" sample_accept "Weekly" (tpl_config sample_template) (tpl_header_config sample_template) (tpl_layers sample_template) (tpl_footer_config sample_template) None sample_dup_world
           eq_refl eq_refl eq_refl eq_refl).
Defined.

(** ** Loading a template into the session state *)
Lemma lookup_ss_del (k k' : string) (s : sstate) :
  dict_lookup (ss_del k' s) k = if String.eqb k k' then None else dict_lookup s k.
Proof.
  unfold ss_del. induction s as [|[a v] t IH]; simpl.
  - destruct (String.eqb k k'); reflexivity.
  - destruct (String.eqb a k') eqn:E1; simpl.
    + apply String.eqb_eq in E1. subst a. rewrite IH.
      destruct (String.eqb k k'); reflexivity.
    + rewrite IH. destruct (String.eqb k a) eqn:E2; [|reflexivity].
      apply String.eqb_eq in E2. subst a. rewrite E1. reflexivity.
Qed.

Lemma lookup_ss_put (k k' : string) (v : pyval) (s : sstate) :
  dict_lookup (ss_put k' v s) k = if String.eqb k k' then Some v else dict_lookup s k.
Proof.
  unfold ss_put. simpl. rewrite lookup_ss_del. destruct (String.eqb k k'); reflexivity.
Qed.

Section Confines.
Context (Q : pyval -> Prop) (k : string).

Lemma confines_sret {A} (a : A) : confines Q k (sret a).
Proof. intros s. left. reflexivity. Qed.

Lemma confines_slift {A} (r : res A) : confines Q k (slift r).
Proof. intros s. left. reflexivity. Qed.

Lemma confines_sbind {A B} (m : stm A) (f : A -> stm B) :
  confines Q k m -> (forall a, confines Q k (f a)) -> confines Q k (sbind m f).
Proof.
  intros Hm Hf s. unfold sbind. specialize (Hm s).
  destruct (m s) as [[a|e] s'] eqn:E; simpl in *; [|exact Hm].
  destruct (Hf a s') as [H|H]; [rewrite H; exact Hm | right; exact H].
Qed.

Lemma confines_swhen (b : bool) (m : stm unit) : confines Q k m -> confines Q k (swhen b m).
Proof. intros Hm. destruct b; [exact Hm | apply confines_sret]. Qed.

Lemma confines_sput_other (k' : string) (v : pyval) : k' <> k -> confines Q k (sput k' v).
Proof.
  intros Hne s. left. unfold sput. cbn [snd]. rewrite lookup_ss_put.
  destruct (String.eqb k k') eqn:E; [apply String.eqb_eq in E; congruence | reflexivity].
Qed.

Lemma confines_sdel_other (k' : string) : k' <> k -> confines Q k (sdel_if_present k').
Proof.
  intros Hne s. left. unfold sdel_if_present. cbn [snd]. rewrite lookup_ss_del.
  destruct (String.eqb k k') eqn:E; [apply String.eqb_eq in E; congruence | reflexivity].
Qed.

Lemma confines_sforM {A} (l : list A) (f : A -> stm unit) :
  (forall x, In x l -> confines Q k (f x)) -> confines Q k (sforM l f).
Proof.
  induction l as [|x t IH]; simpl; intros H; [apply confines_sret|].
  apply confines_sbind; [apply H; left; reflexivity | intros _; apply IH; intros; apply H; right; assumption].
Qed.

Lemma confines_sforM_from {A} (i : Z) (l : list A) (f : Z -> A -> stm unit) :
  (forall j x, confines Q k (f j x)) -> confines Q k (sforM_from i l f).
Proof.
  revert i. induction l as [|x t IH]; simpl; intros i H; [apply confines_sret|].
  apply confines_sbind; [apply H | intros _; apply IH; exact H].
Qed.

End Confines.

Ltac conf :=
  repeat (cbn beta iota zeta; first
    [ apply confines_sbind; [|intros ?]
    | apply confines_sret
    | apply confines_slift
    | apply confines_swhen
    | apply confines_sput_other; discriminate
    | apply confines_sdel_other; discriminate
    | apply confines_sforM; let x := fresh "x" in let Hx := fresh "Hx" in
        intros x Hx; simpl in Hx; repeat destruct Hx as [<-|Hx]; [..|contradiction Hx]
    | apply confines_sforM_from; intros ? ?
    | match goal with
      | |- confines _ _ (match ?x with _ => _ end) => destruct x
      end
    | progress unfold copy_raw, copy_int, copy_bool, copy_str, load_image_source, reset_text,
        apply_social_network ]).

Lemma confines_frame {A} (k : string) (m : stm A) (s : sstate) :
  confines (fun _ => False) k m -> dict_lookup (snd (m s)) k = dict_lookup s k.
Proof. intros H. destruct (H s) as [E|[v [_ []]]]. exact E. Qed.

Lemma dict_has_not_in (d : dict) (keys : list string) (key : string) :
  (forall k, dict_has d k = true -> In k keys) -> ~ In key keys -> dict_has d key = false.
Proof.
  intros H Hn. destruct (dict_has d key) eqn:E; [|reflexivity]. exfalso. apply Hn, H, E.
Qed.

Lemma dict_keys_within (d : dict) (keys : list string) :
  forallb (fun kv => existsb (String.eqb (fst kv)) keys) d = true ->
  forall k, dict_has d k = true -> In k keys.
Proof.
  induction d as [|[k' v] d IH]; intros Hall k Hk; [discriminate|].
  simpl in Hall. apply andb_prop in Hall as [H1 H2].
  unfold dict_has in Hk. simpl in Hk. destruct (String.eqb k k') eqn:E.
  - apply String.eqb_eq in E. subst k'. apply existsb_exists in H1 as [x [Hx Hb]].
    apply String.eqb_eq in Hb. subst x. exact Hx.
  - apply IH; assumption.
Qed.

(** X9: the header settings saved by [render_header_config] use the keys
    [title_color], [title_font_size], [title_bold], [text_color] and
    [text_font_size]. Loading the template tests for [header_title_color]
    and the other [header_]-prefixed keys instead, so for a header saved
    by the editor these five session keys keep their previous values. *)
Theorem header_style_not_restored (t : template) (s : sstate) (k : string) :
  forallb (fun kv => existsb (String.eqb (fst kv)) render_header_config_keys)
    (tpl_header_config t) = true ->
  In k header_style_keys ->
  dict_lookup (snd (apply_template_to_session_state t s)) k = dict_lookup s k.
Proof.
  intros Hkeys0 Hk. pose proof (dict_keys_within _ _ Hkeys0) as Hkeys. clear Hkeys0.
  apply confines_frame.
  assert (Hn : forall key, In key header_style_keys -> dict_has (tpl_header_config t) key = false).
  { intros key Hin. apply (dict_has_not_in _ _ _ Hkeys).
    simpl in Hin. unfold render_header_config_keys.
    repeat destruct Hin as [<-|Hin]; [..|contradiction Hin]; simpl; intuition discriminate. }
  pose proof (Hn _ (or_introl eq_refl)) as H1.
  pose proof (Hn _ (or_intror (or_introl eq_refl))) as H2.
  pose proof (Hn _ (or_intror (or_intror (or_introl eq_refl)))) as H3.
  pose proof (Hn _ (or_intror (or_intror (or_intror (or_introl eq_refl))))) as H4.
  pose proof (Hn _ (or_intror (or_intror (or_intror (or_intror (or_introl eq_refl)))))) as H5.
  clear Hn Hkeys. simpl in Hk.
  unfold apply_template_to_session_state, apply_config, apply_header, apply_footer, apply_subscription.
  rewrite H1, H2, H3, H4, H5.
  repeat destruct Hk as [<-|Hk]; [..|contradiction Hk]; conf.
  all: unfold apply_layer; conf.
Qed.

(** X9 (witness): the sample template saves the title colour [#ff0000];
    after loading it the session still shows the earlier [#00ff00]. *)
Lemma header_style_not_restored_witness :
  dict_lookup (tpl_header_config sample_template) "title_color" = Some (PStr "#ff0000") /\
  dict_lookup (snd (apply_template_to_session_state sample_template
                      [("header_title_color", PStr "#00ff00")])) "header_title_color"
    = Some (PStr "#00ff00").
Proof.
  split; [reflexivity |].
  exact (header_style_not_restored sample_template [("header_title_color", PStr "#00ff00")]
           "header_title_color" eq_refl (or_introl eq_refl)).
Defined.

Lemma confines_sput_valid (Q : pyval -> Prop) (k k' : string) (v : pyval) :
  Q v -> confines Q k (sput k' v).
Proof.
  intros Hv s. unfold sput. cbn [snd]. rewrite lookup_ss_put.
  destruct (String.eqb k k'); [right; exists v; split; [reflexivity | exact Hv] | left; reflexivity].
Qed.

Lemma str_index_bound (x : string) (l : list string) (n : nat) :
  str_index x l = Some n -> (n < length l)%nat.
Proof.
  revert n. induction l as [|o t IH]; simpl; intros n H; [discriminate|].
  destruct (String.eqb x o); [inversion H; lia|].
  destruct (str_index x t) as [m|] eqn:E; simpl in H; [|discriminate].
  inversion H; subst. specialize (IH m eq_refl). lia.
Qed.

Lemma footer_alignment_index_range (x : string) : (0 <= footer_alignment_index x <= 2)%Z.
Proof.
  unfold footer_alignment_index.
  destruct (String.eqb x "Left"); [lia|]. destruct (String.eqb x "Center"); [lia|].
  destruct (String.eqb x "Right"); lia.
Qed.

Lemma normalize_footer_pos_cases (raw : pyval) :
  normalize_footer_pos raw = "Above Text" \/ normalize_footer_pos raw = "After Text".
Proof.
  unfold normalize_footer_pos. destruct raw; [left; reflexivity|..];
  repeat match goal with |- context [if ?b then _ else _] => destruct b end; auto.
Qed.

Lemma existsb_eqb_two (x a b : string) :
  existsb (String.eqb x) [a; b] = true -> x = a \/ x = b.
Proof.
  simpl. rewrite orb_false_r. intros H. apply orb_prop in H as [H|H];
  apply String.eqb_eq in H; auto.
Qed.

Ltac conf_with tac :=
  repeat (cbn beta iota zeta; first
    [ apply confines_sbind; [|intros ?]
    | apply confines_sret
    | apply confines_slift
    | apply confines_swhen
    | apply confines_sput_other; discriminate
    | apply confines_sdel_other; discriminate
    | apply confines_sput_valid; solve [tac]
    | apply confines_sforM; let x := fresh "x" in let Hx := fresh "Hx" in
        intros x Hx; simpl in Hx; repeat destruct Hx as [<-|Hx]; [..|contradiction Hx]
    | apply confines_sforM_from; intros ? ?
    | match goal with
      | |- confines _ _ (match ?x with _ => _ end) => let E := fresh "Ecase" in destruct x eqn:E
      end
    | progress unfold copy_raw, copy_int, copy_bool, copy_str, load_image_source, reset_text,
        apply_social_network ]).

Ltac option_value :=
  first
    [ left; reflexivity
    | right; reflexivity
    | eexists; split; [reflexivity | apply footer_alignment_index_range]
    | match goal with
      | E : str_index _ _ = Some ?n |- _ =>
          apply str_index_bound in E; simpl in E; eexists; split; [reflexivity | lia]
      end
    | eexists; split; [reflexivity | lia]
    | match goal with |- context [normalize_footer_pos ?r] =>
        destruct (normalize_footer_pos_cases r) as [-> | ->]; [left | right]; reflexivity end
    | match goal with |- context [if existsb (String.eqb ?x) [?a; ?b] then _ else _] =>
        let E := fresh "E" in destruct (existsb (String.eqb x) [a; b]) eqn:E;
        [destruct (existsb_eqb_two _ _ _ E) as [-> | ->]; [left | right]; reflexivity
        | left; reflexivity] end
    | match goal with |- context [if ?b then _ else _] => destruct b; [left | right]; reflexivity end
    | match goal with E : existsb (String.eqb ?x) [_; _] = true |- _ =>
        destruct (existsb_eqb_two _ _ _ E) as [-> | ->]; [left | right]; reflexivity end ].

Lemma font_family_valid (t : template) :
  confines (fun v => exists n, v = PInt n /\ (0 <= n <= 8)%Z) "Font Family"
    (apply_template_to_session_state t).
Proof.
  unfold apply_template_to_session_state, apply_config, apply_header, apply_footer,
    apply_subscription, apply_layer.
  conf_with option_value.
Qed.

Ltac apply_template_conf :=
  unfold apply_template_to_session_state, apply_config, apply_header, apply_footer,
    apply_subscription, apply_layer;
  conf_with option_value.

Lemma alignment_valid (t : template) (i : Z) :
  confines (fun v => v = PInt 0 \/ v = PInt 1) ("alignment_" +++ z_str i)
    (apply_template_to_session_state t).
Proof. apply_template_conf. Qed.

Lemma footer_alignment_valid (t : template) :
  confines (fun v => exists n, v = PInt n /\ (0 <= n <= 2)%Z) "footer_alignment"
    (apply_template_to_session_state t).
Proof. apply_template_conf. Qed.

Lemma footer_image_position_valid (t : template) :
  confines (fun v => v = PStr "Above Text" \/ v = PStr "After Text") "footer_image_position"
    (apply_template_to_session_state t).
Proof. apply_template_conf. Qed.

Lemma footer_social_type_valid (t : template) :
  confines (fun v => v = PStr "URLs Only" \/ v = PStr "Images") "footer_social_type"
    (apply_template_to_session_state t).
Proof. apply_template_conf. Qed.

Lemma image_source_valid (t : template) (k : string) (i : Z) :
  k = "header_image_source" \/ k = "image_source_" +++ z_str i \/ k = "footer_image_source" ->
  confines image_source_value k (apply_template_to_session_state t).
Proof. intros [->|[->| ->]]; apply_template_conf. Qed.

(** X10: loading a template leaves every option widget key either unchanged
    or within its options. The font index is between 0 and 8, each layer
    alignment is 0 or 1, and the footer alignment is between 0 and 2. The
    footer image position, the social link type and the three image
    sources are each one of their option strings. *)
Theorem loaded_options_valid (t : template) (s : sstate) (i : Z) :
  let s' := snd (apply_template_to_session_state t s) in
  let kept_or (k : string) (Q : pyval -> Prop) :=
    dict_lookup s' k = dict_lookup s k \/ exists v, dict_lookup s' k = Some v /\ Q v in
  kept_or "Font Family" (fun v => exists n, v = PInt n /\ (0 <= n <= 8)%Z) /\
  kept_or ("alignment_" +++ z_str i) (fun v => v = PInt 0 \/ v = PInt 1) /\
  kept_or "footer_alignment" (fun v => exists n, v = PInt n /\ (0 <= n <= 2)%Z) /\
  kept_or "footer_image_position" (fun v => v = PStr "Above Text" \/ v = PStr "After Text") /\
  kept_or "footer_social_type" (fun v => v = PStr "URLs Only" \/ v = PStr "Images") /\
  kept_or "header_image_source" image_source_value /\
  kept_or ("image_source_" +++ z_str i) image_source_value /\
  kept_or "footer_image_source" image_source_value.
Proof.
  intros s' kept_or. unfold kept_or, s'.
  split; [exact (font_family_valid t s)|].
  split; [exact (alignment_valid t i s)|].
  split; [exact (footer_alignment_valid t s)|].
  split; [exact (footer_image_position_valid t s)|].
  split; [exact (footer_social_type_valid t s)|].
  split; [exact (image_source_valid t _ i (or_introl eq_refl) s)|].
  split; [exact (image_source_valid t _ i (or_intror (or_introl eq_refl)) s)|].
  exact (image_source_valid t _ i (or_intror (or_intror eq_refl)) s).
Qed.

Lemma sbind_ok_inv {A B} (m : stm A) (f : A -> stm B) (s : sstate) (b : B) :
  fst (sbind m f s) = Ok b ->
  exists a s1, m s = (Ok a, s1) /\ sbind m f s = f a s1.
Proof.
  unfold sbind. destruct (m s) as [[a|e] s1]; simpl; intros H; [|discriminate].
  exists a, s1. split; reflexivity.
Qed.

Lemma sets_sput (k : string) (v : pyval) : sets k v (sput k v).
Proof. intros s a _. unfold sput. cbn [snd]. rewrite lookup_ss_put, String.eqb_refl. reflexivity. Qed.

Lemma sets_then_frame {A B} (k : string) (v : pyval) (m : stm A) (f : A -> stm B) :
  sets k v m -> (forall a, confines (fun _ => False) k (f a)) -> sets k v (sbind m f).
Proof.
  intros Hm Hf s b H. destruct (sbind_ok_inv m f s b H) as [a [s1 [E1 E2]]].
  rewrite E2. rewrite (confines_frame k (f a) s1 (Hf a)).
  specialize (Hm s a). rewrite E1 in Hm. apply Hm. reflexivity.
Qed.

Lemma sets_after {A B} (k : string) (v : pyval) (m : stm A) (f : A -> stm B) :
  (forall a, sets k v (f a)) -> sets k v (sbind m f).
Proof.
  intros Hf s b H. destruct (sbind_ok_inv m f s b H) as [a [s1 [E1 E2]]].
  rewrite E2 in *. exact (Hf a s1 b H).
Qed.

Lemma image_cond_true (u : pyval) :
  truthy u = true /\ strip (py_str u) <> "" -> truthy u && str_truthy (strip (py_str u)) = true.
Proof.
  intros [H1 H2]. rewrite H1. destruct (strip (py_str u)); [congruence | reflexivity].
Qed.

Lemma image_cond_false (u : pyval) :
  truthy u = false \/ strip (py_str u) = "" -> truthy u && str_truthy (strip (py_str u)) = false.
Proof. intros [H|H]; rewrite H; [reflexivity | apply andb_false_r]. Qed.

Ltac frame_rest := intros _; unfold apply_layer, apply_footer, apply_subscription; conf.

(** X11: after a successful load, the header and footer image source follow
    the saved data. A non-blank URL wins, and its stripped value is
    restored. Otherwise non-blank base64 data is used. Otherwise the source
    key keeps its previous value. *)
Theorem loaded_image_source_precedence (t : template) (s : sstate) (section : string) (cfg : dict) :
  (section = "header" /\ cfg = tpl_header_config t) \/
  (section = "footer" /\ cfg = tpl_footer_config t) ->
  fst (apply_template_to_session_state t s) = Ok tt ->
  let url := dict_get cfg (section +++ "_image_url") PNone in
  let b64 := dict_get cfg (section +++ "_image_base64") PNone in
  let s' := snd (apply_template_to_session_state t s) in
  (truthy url = true /\ strip (py_str url) <> "" ->
   dict_lookup s' (section +++ "_image_source") = Some (PStr "External URL") /\
   dict_lookup s' (section +++ "_image_url") = Some (PStr (strip (py_str url)))) /\
  ((truthy url = false \/ strip (py_str url) = "") ->
   truthy b64 = true /\ strip (py_str b64) <> "" ->
   dict_lookup s' (section +++ "_image_source") = Some (PStr "Upload Image (Base64)") /\
   dict_lookup s' (section +++ "_image_base64") = Some (PStr (strip (py_str b64)))) /\
  ((truthy url = false \/ strip (py_str url) = "") ->
   (truthy b64 = false \/ strip (py_str b64) = "") ->
   dict_lookup s' (section +++ "_image_source") = dict_lookup s (section +++ "_image_source")).
Proof.
  intros Hsec Hok url b64 s'. unfold url, b64, s' in *. clear url b64 s'.
  destruct Hsec as [[-> ->] | [-> ->]]; simpl.
  - split; [|split].
    + intros Hu%image_cond_true. split.
      * apply (fun H : sets _ _ (apply_template_to_session_state t) => H s tt Hok).
        unfold apply_template_to_session_state. apply sets_after; intros _. apply sets_after; intros _.
        apply sets_then_frame; [| frame_rest].
        unfold apply_header. apply sets_after; intros _. apply sets_after; intros _.
        apply sets_then_frame; [| intros _; conf].
        unfold load_image_source. rewrite Hu. apply sets_after; intros _. apply sets_sput.
      * apply (fun H : sets _ _ (apply_template_to_session_state t) => H s tt Hok).
        unfold apply_template_to_session_state. apply sets_after; intros _. apply sets_after; intros _.
        apply sets_then_frame; [| frame_rest].
        unfold apply_header. apply sets_after; intros _. apply sets_after; intros _.
        apply sets_then_frame; [| intros _; conf].
        unfold load_image_source. rewrite Hu. apply sets_then_frame; [apply sets_sput | intros _; conf].
    + intros Hu%image_cond_false Hb%image_cond_true. split.
      * apply (fun H : sets _ _ (apply_template_to_session_state t) => H s tt Hok).
        unfold apply_template_to_session_state. apply sets_after; intros _. apply sets_after; intros _.
        apply sets_then_frame; [| frame_rest].
        unfold apply_header. apply sets_after; intros _. apply sets_after; intros _.
        apply sets_then_frame; [| intros _; conf].
        unfold load_image_source. rewrite Hu, Hb. apply sets_after; intros _. apply sets_sput.
      * apply (fun H : sets _ _ (apply_template_to_session_state t) => H s tt Hok).
        unfold apply_template_to_session_state. apply sets_after; intros _. apply sets_after; intros _.
        apply sets_then_frame; [| frame_rest].
        unfold apply_header. apply sets_after; intros _. apply sets_after; intros _.
        apply sets_then_frame; [| intros _; conf].
        unfold load_image_source. rewrite Hu, Hb. apply sets_then_frame; [apply sets_sput | intros _; conf].
    + intros Hu%image_cond_false Hb%image_cond_false. clear Hok. apply confines_frame.
      unfold apply_template_to_session_state, apply_header, load_image_source.
      rewrite Hu, Hb. conf. all: unfold apply_config, apply_footer, apply_subscription, apply_layer; conf.
  - split; [|split].
    + intros Hu%image_cond_true. split.
      * apply (fun H : sets _ _ (apply_template_to_session_state t) => H s tt Hok).
        unfold apply_template_to_session_state. do 4 (apply sets_after; intros _).
        apply sets_then_frame; [| frame_rest].
        unfold apply_footer. apply sets_after; intros _. apply sets_after; intros _.
        apply sets_then_frame; [| intros _; conf].
        unfold load_image_source. rewrite Hu. apply sets_after; intros _. apply sets_sput.
      * apply (fun H : sets _ _ (apply_template_to_session_state t) => H s tt Hok).
        unfold apply_template_to_session_state. do 4 (apply sets_after; intros _).
        apply sets_then_frame; [| frame_rest].
        unfold apply_footer. apply sets_after; intros _. apply sets_after; intros _.
        apply sets_then_frame; [| intros _; conf].
        unfold load_image_source. rewrite Hu. apply sets_then_frame; [apply sets_sput | intros _; conf].
    + intros Hu%image_cond_false Hb%image_cond_true. split.
      * apply (fun H : sets _ _ (apply_template_to_session_state t) => H s tt Hok).
        unfold apply_template_to_session_state. do 4 (apply sets_after; intros _).
        apply sets_then_frame; [| frame_rest].
        unfold apply_footer. apply sets_after; intros _. apply sets_after; intros _.
        apply sets_then_frame; [| intros _; conf].
        unfold load_image_source. rewrite Hu, Hb. apply sets_after; intros _. apply sets_sput.
      * apply (fun H : sets _ _ (apply_template_to_session_state t) => H s tt Hok).
        unfold apply_template_to_session_state. do 4 (apply sets_after; intros _).
        apply sets_then_frame; [| frame_rest].
        unfold apply_footer. apply sets_after; intros _. apply sets_after; intros _.
        apply sets_then_frame; [| intros _; conf].
        unfold load_image_source. rewrite Hu, Hb. apply sets_then_frame; [apply sets_sput | intros _; conf].
    + intros Hu%image_cond_false Hb%image_cond_false. clear Hok. apply confines_frame.
      unfold apply_template_to_session_state, apply_footer, load_image_source.
      rewrite Hu, Hb. conf. all: unfold apply_config, apply_header, apply_subscription, apply_layer; conf.
Qed.

(** X11 (witness): the sample header has both a padded URL and base64
    data; the URL wins, stripped. *)
Lemma loaded_image_source_precedence_witness :
  fst (apply_template_to_session_state sample_template []) = Ok tt /\
  dict_lookup (snd (apply_template_to_session_state sample_template [])) "header_image_source"
    = Some (PStr "External URL") /\
  dict_lookup (snd (apply_template_to_session_state sample_template [])) "header_image_url"
    = Some (PStr "https://x.test/h.png").
Proof.
  assert (Hok : fst (apply_template_to_session_state sample_template []) = Ok tt)
    by (vm_compute; reflexivity).
  split; [exact Hok |].
  destruct (loaded_image_source_precedence sample_template [] "header"
              (tpl_header_config sample_template) (or_introl (conj eq_refl eq_refl)) Hok)
    as [Hurl _].
  assert (Hu : dict_get (tpl_header_config sample_template) ("header" +++ "_image_url") PNone
               = PStr " https://x.test/h.png ") by (vm_compute; reflexivity).
  assert (Hs : strip (py_str (PStr " https://x.test/h.png ")) = "https://x.test/h.png")
    by (vm_compute; reflexivity).
  rewrite Hu, Hs in Hurl.
  change ("header" +++ "_image_source") with "header_image_source" in Hurl.
  change ("header" +++ "_image_url") with "header_image_url" in Hurl.
  apply Hurl. split; [reflexivity | discriminate].
Defined.

Lemma copy_str_ok (d : dict) (key skey default : string) (s : sstate) :
  copy_str d key skey default s = (Ok tt, snd (copy_str d key skey default s)).
Proof. unfold copy_str, swhen. destruct (dict_has d key); reflexivity. Qed.

Lemma sbind_ok {A B} (m : stm A) (f : A -> stm B) (s s' : sstate) (a : A) :
  m s = (Ok a, s') -> sbind m f s = f a s'.
Proof. intros H. unfold sbind. rewrite H. reflexivity. Qed.

Lemma sbind_raise {A B} (m : stm A) (f : A -> stm B) (s s' : sstate) (e : pyexn) :
  m s = (Raise e, s') -> sbind m f s = (Raise e, s').
Proof. intros H. unfold sbind. rewrite H. reflexivity. Qed.

(** X12: if the saved [num_layers] is a string that is not an integer
    literal, loading the template stops with Python's [ValueError]. By then
    only the template name and the email subject have been written. *)
Theorem invalid_number_aborts_load (t : template) (s : sstate) (txt : string) :
  dict_lookup (tpl_config t) "num_layers" = Some (PStr txt) ->
  int_of_str txt = None ->
  apply_template_to_session_state t s =
    (Raise (PyExn "ValueError" ("invalid literal for int() with base 10: " +++ py_repr txt)),
     snd (copy_str (tpl_config t) "email_subject" "Email Subject" ""
            (ss_put "loaded_template_name" (PStr (tpl_name t)) s))).
Proof.
  intros Hk Hv. unfold apply_template_to_session_state.
  rewrite (sbind_ok (sput "loaded_template_name" (PStr (tpl_name t))) _ s _ tt eq_refl).
  apply sbind_raise. unfold apply_config.
  rewrite (sbind_ok _ _ _ _ tt (copy_str_ok _ _ _ _ _)).
  apply sbind_raise. unfold copy_int, dict_has, dict_get. rewrite Hk. cbn [swhen].
  apply sbind_raise. cbn [slift py_int]. rewrite Hv. reflexivity.
Qed.

(** X12 (witness): a template whose layer count is the text [three]. *)
Lemma invalid_number_aborts_load_witness :
  fst (apply_template_to_session_state sample_bad_template [])
    = Raise (PyExn "ValueError" "invalid literal for int() with base 10: 'three'").
Proof.
  rewrite (invalid_number_aborts_load sample_bad_template [] "three" eq_refl eq_refl).
  vm_compute. reflexivity.
Defined.

(** ** The download file name and the duplicate-order warning *)





Lemma insert_z_perm (x : Z) (l : list Z) : Permutation (insert_z x l) (x :: l).
Proof.
  induction l as [|y t IH]; simpl; [reflexivity|].
  destruct (Z.leb x y); [reflexivity|].
  transitivity (y :: x :: t); [constructor; exact IH | constructor].
Qed.

Lemma sort_z_perm (l : list Z) : Permutation (sort_z l) l.
Proof.
  induction l as [|x t IH]; simpl; [reflexivity|].
  rewrite insert_z_perm. constructor. exact IH.
Qed.

Lemma insert_z_sorted (x : Z) (l : list Z) :
  StronglySorted Z.le l -> StronglySorted Z.le (insert_z x l).
Proof.
  induction 1 as [|y t Ht IH Hall]; simpl.
  - repeat constructor.
  - destruct (Z.leb x y) eqn:E.
    + apply Z.leb_le in E. constructor; [constructor; assumption|].
      constructor; [exact E|]. rewrite Forall_forall in *. intros z Hz. specialize (Hall z Hz). lia.
    + apply Z.leb_gt in E. constructor; [exact IH|].
      apply (Permutation_Forall (Permutation_sym (insert_z_perm x t))).
      constructor; [lia | exact Hall].
Qed.

Lemma sort_z_sorted (l : list Z) : StronglySorted Z.le (sort_z l).
Proof. induction l as [|x t IH]; simpl; [constructor | apply insert_z_sorted; exact IH]. Qed.

Lemma sorted_nodup_lt (l : list Z) :
  StronglySorted Z.le l -> NoDup l -> StronglySorted Z.lt l.
Proof.
  induction 1 as [|a t Ht IH Hall]; intros Hnd; constructor.
  - inversion Hnd; subst. apply IH. assumption.
  - inversion Hnd as [|? ? Hnin Hnd']; subst.
    rewrite Forall_forall in *. intros y Hy. specialize (Hall y Hy).
    assert (a <> y) by (intros ->; contradiction). lia.
Qed.

Lemma duplicate_orders_in (set_orders orders : list Z) (x : Z) :
  (forall y, In y set_orders <-> In y orders) ->
  In x (duplicate_orders set_orders orders) <-> (count_occ Z.eq_dec orders x > 1)%nat.
Proof.
  intros Hset. unfold duplicate_orders. rewrite filter_In, Hset, Nat.ltb_lt. split.
  - intros [_ H]. exact H.
  - intros H. split; [|exact H]. apply (count_occ_In Z.eq_dec). lia.
Qed.

(** X14: the duplicate-order warning in [main] does not depend on the
    iteration order of the set of orders. It lists, in increasing order
    and without repetition, exactly the orders used by more than one
    layer. *)
Theorem duplicate_orders_message (set1 set2 orders : list Z) :
  NoDup set1 -> NoDup set2 ->
  (forall x, In x set1 <-> In x orders) -> (forall x, In x set2 <-> In x orders) ->
  duplicate_orders_text set1 orders = duplicate_orders_text set2 orders /\
  StronglySorted Z.lt (sort_z (duplicate_orders set1 orders)) /\
  (forall x, In x (sort_z (duplicate_orders set1 orders)) <->
             (count_occ Z.eq_dec orders x > 1)%nat).
Proof.
  intros Hnd1 Hnd2 H1 H2.
  assert (Hnf1 : NoDup (duplicate_orders set1 orders)) by (apply NoDup_filter; exact Hnd1).
  assert (Hnf2 : NoDup (duplicate_orders set2 orders)) by (apply NoDup_filter; exact Hnd2).
  assert (Hs1 : StronglySorted Z.lt (sort_z (duplicate_orders set1 orders))).
  { apply sorted_nodup_lt; [apply sort_z_sorted|].
    apply (Permutation_NoDup (Permutation_sym (sort_z_perm _))). exact Hnf1. }
  assert (Hs2 : StronglySorted Z.lt (sort_z (duplicate_orders set2 orders))).
  { apply sorted_nodup_lt; [apply sort_z_sorted|].
    apply (Permutation_NoDup (Permutation_sym (sort_z_perm _))). exact Hnf2. }
  split; [|split; [exact Hs1|]].
  - unfold duplicate_orders_text. f_equal. f_equal.
    apply (strongly_sorted_perm_eq Z.lt); [intros a; lia | intros a b c; lia | exact Hs1 | exact Hs2 |].
    rewrite !sort_z_perm. apply NoDup_Permutation; [exact Hnf1 | exact Hnf2 |].
    intros x. rewrite (duplicate_orders_in _ _ x H1), (duplicate_orders_in _ _ x H2). reflexivity.
  - intros x. split.
    + intros Hin. apply (Permutation_in _ (sort_z_perm _)) in Hin.
      apply (duplicate_orders_in _ _ x H1). exact Hin.
    + intros Hc. apply (Permutation_in _ (Permutation_sym (sort_z_perm _))).
      apply (duplicate_orders_in _ _ x H1). exact Hc.
Qed.

(** X14 (witness): orders 1, 3, 1, 3, 2, with the set enumerated in two
    different orders. *)
Lemma duplicate_orders_message_witness :
  duplicate_orders_text [1; 2; 3]%Z [1; 3; 1; 3; 2]%Z = duplicate_orders_text [3; 2; 1]%Z [1; 3; 1; 3; 2]%Z /\
  duplicate_orders_text [1; 2; 3]%Z [1; 3; 1; 3; 2]%Z = "1, 3".
Proof.
  split; [| vm_compute; reflexivity].
  apply (proj1 (duplicate_orders_message [1; 2; 3]%Z [3; 2; 1]%Z [1; 3; 1; 3; 2]%Z
                  ltac:(repeat constructor; simpl; lia) ltac:(repeat constructor; simpl; lia)
                  ltac:(intros x; simpl; lia) ltac:(intros x; simpl; lia))).
Defined.
